(** * Java upgrade extension: plan generator, resolver, analyzer, state manager
      and the start-upgrade command, embedded from the TypeScript sources.

    Layout: JavaScript primitives used by the sources ([parseInt], [split],
    truthiness), the data model, a small effect language for [async] code
    with its interpreter, then one module per service, then the properties. *)

From Stdlib Require Import ZArith Lia Ascii String List Bool.
From stdpp Require Import base option list gmap strings pretty.

Local Open Scope string_scope.
Local Open Scope list_scope.
Local Open Scope Z_scope.

(* ===================================================================== *)
(** ** JavaScript primitives *)
(* ===================================================================== *)

Module JS.

(** A JavaScript string is modelled by a Rocq [string] whose characters
    are UTF-16 code units below 256. *)

(** [s.split(sep)] for a one-character separator: never empty, the empty
    string splits into one empty segment. *)
Fixpoint split (sep : ascii) (s : string) : list string :=
  match s with
  | EmptyString => [EmptyString]
  | String c r =>
      if Ascii.eqb c sep then EmptyString :: split sep r
      else match split sep r with
           | h :: t => String c h :: t
           | [] => [String c EmptyString]
           end
  end.

(** [parts.join(sep)]. *)
Fixpoint join (sep : string) (parts : list string) : string :=
  match parts with
  | [] => ""
  | [p] => p
  | p :: rest => p +:+ sep +:+ join sep rest
  end.

(** [parts.slice(0, n)]. *)
Definition slice0 (n : nat) (parts : list string) : list string := take n parts.

(** [parts[0]] on the result of [split], which always has a first
    element. *)
Definition first (parts : list string) : string :=
  match parts with
  | p :: _ => p
  | [] => ""
  end.

(** StrWhiteSpaceChar restricted to code units below 256: TAB, LF, VT,
    FF, CR, SP and NBSP. *)
Definition is_white_space (c : ascii) : bool :=
  let n := N_of_ascii c in
  (n =? 9)%N || (n =? 10)%N || (n =? 11)%N || (n =? 12)%N || (n =? 13)%N
  || (n =? 32)%N || (n =? 160)%N.

Fixpoint trim_start (s : string) : string :=
  match s with
  | String c r => if is_white_space c then trim_start r else s
  | EmptyString => EmptyString
  end.

(** Value of a character as a digit in some radix up to 36. *)
Definition digit_value (c : ascii) : option Z :=
  let n := Z.of_N (N_of_ascii c) in
  if (48 <=? n) && (n <=? 57) then Some (n - 48)
  else if (97 <=? n) && (n <=? 122) then Some (n - 97 + 10)
  else if (65 <=? n) && (n <=? 90) then Some (n - 65 + 10)
  else None.

(** Longest prefix of radix digits, read most significant first; [acc] is
    [None] until a first digit has been read. *)
Fixpoint parse_digits (radix : Z) (s : string) (acc : option Z) : option Z :=
  match s with
  | EmptyString => acc
  | String c r =>
      match digit_value c with
      | Some d =>
          if d <? radix
          then parse_digits radix r (Some (default 0 acc * radix + d))
          else acc
      | None => acc
      end
  end.

(** [parseInt(s)] with no radix argument. [None] is NaN. The mathematical
    integer is kept exact: the sources only compare the result with 11, 17
    and 21, and rounding to a double (or to an infinity) is monotone and
    leaves these three values fixed, so every such comparison has the same
    outcome on the exact integer. *)
Definition parseInt (s : string) : option Z :=
  let s1 := trim_start s in
  let '(sign, s2) :=
    match s1 with
    | String "-"%char r => (-1, r)
    | String "+"%char r => (1, r)
    | _ => (1, s1)
    end in
  let '(radix, s3) :=
    match s2 with
    | String "0"%char (String "x"%char r) => (16, r)
    | String "0"%char (String "X"%char r) => (16, r)
    | _ => (10, s2)
    end in
  match parse_digits radix s3 None with
  | Some n => Some (sign * n)
  | None => None
  end.

(** [a < b] where [a] comes from [parseInt]: false when [a] is NaN. *)
Definition lt (a : option Z) (b : Z) : bool :=
  match a with
  | Some n => n <? b
  | None => false
  end.

(** Truthiness of a string: only the empty string is falsy. *)
Definition truthy (s : string) : bool :=
  match s with
  | EmptyString => false
  | String _ _ => true
  end.

(** Truthiness of [string | undefined] and [string | null]. *)
Definition truthy_opt (o : option string) : bool :=
  match o with
  | Some s => truthy s
  | None => false
  end.

(** What a [throw] carries. [instanceof Error] holds for [ErrorObject]
    whatever its class. *)
Inductive ErrorClass := PlainError | TypeError | ExecException | AxiosError.

Inductive Thrown :=
| ErrorObject (cls : ErrorClass) (message : string)
| NonError.

#[global] Instance ErrorClass_eq_dec : EqDecision ErrorClass.
Proof. solve_decision. Defined.

#[global] Instance Thrown_eq_dec : EqDecision Thrown.
Proof. solve_decision. Defined.

Definition instanceof_Error (t : Thrown) : bool :=
  match t with
  | ErrorObject _ _ => true
  | NonError => false
  end.

(** The double-quote and the line-feed characters, as strings. *)
Definition dquote : string := String (ascii_of_N 34) EmptyString.
Definition nl : string := String (ascii_of_N 10) EmptyString.

End JS.

(* ===================================================================== *)
(** ** Data model (the interfaces declared by the services) *)
(* ===================================================================== *)

Inductive BuildSystem := maven | gradle.

(** [Dependency] in the plan generator and the analyzer,
    [DependencyCoordinate] in the resolver: the same three fields. *)
Record Dependency := {
  groupId : string;
  artifactId : string;
  version : string
}.

Record ProjectInfo := {
  buildSystem : BuildSystem;
  currentJavaVersion : string;
  dependencies : list Dependency;
  springBootVersion : option string
}.

Record DependencyUpdate := {
  upd_groupId : string;
  upd_artifactId : string;
  fromVersion : string;
  toVersion : string
}.

(** What [versionMap[majorMinor] || '3.2.0'] evaluates to: a version string,
    or, for a key that names a member of [Object.prototype], that member. *)
Inductive SpringTarget :=
| SpringVersion (v : string)
| ObjectPrototypeMember (name : string).

Record UpgradePlan := {
  javaVersion : string;
  plan_springBootVersion : option SpringTarget;
  recipes : list string;
  dependencyUpdates : list DependencyUpdate
}.

(** [CVEIssue]; its [cves] payload ([any[]]) is not inspected anywhere. *)
Record CVEIssue := {
  cve_dependency : Dependency
}.

Record UpgradeResults := {
  buildSuccess : bool;
  testsPassing : bool;
  cveIssues : list CVEIssue;
  changes : list string
}.

Record VersionConstraints := {
  constraint_javaVersion : option string;
  minVersion : option string;
  maxVersion : option string;
  excludeVersions : option (list string)
}.

Record DependencyConflict := {
  conflict_groupId : string;
  conflict_artifactId : string;
  conflict_versions : list string
}.

Inductive UpgradeStatus := in_progress | completed | failed | cancelled.

Record UpgradeInfo := {
  info_fromVersion : string;
  info_toVersion : string;
  info_buildTool : string;
  info_projectPath : string
}.

Record UpgradeHistoryEntry := {
  entry_info : UpgradeInfo;
  timestamp : string;
  completedAt : option string;
  status : UpgradeStatus
}.

(** The editor's durable key-value store ([context.globalState]) at the four
    keys the state manager uses, each at the type it is read at; [None] is an
    absent key. *)
Record GlobalState := {
  lastUpgradeTimestamp : option string;
  upgradeHistory : option (list UpgradeHistoryEntry);
  userPreferences : option (gmap string string);
  ignoredWarnings : option (list string)
}.

Inductive StateKey : Type -> Type :=
| LAST_UPGRADE_KEY : StateKey string
| UPGRADE_HISTORY_KEY : StateKey (list UpgradeHistoryEntry)
| USER_PREFERENCES_KEY : StateKey (gmap string string)
| IGNORED_WARNINGS_KEY : StateKey (list string).

Definition memento_get {T} (k : StateKey T) (g : GlobalState) : option T :=
  match k in StateKey T return option T with
  | LAST_UPGRADE_KEY => lastUpgradeTimestamp g
  | UPGRADE_HISTORY_KEY => upgradeHistory g
  | USER_PREFERENCES_KEY => userPreferences g
  | IGNORED_WARNINGS_KEY => ignoredWarnings g
  end.

(** [update(key, value)]; [update(key, undefined)] removes the key. *)
Definition memento_update {T} (k : StateKey T) : option T -> GlobalState -> GlobalState :=
  match k in StateKey T return option T -> GlobalState -> GlobalState with
  | LAST_UPGRADE_KEY => fun v g =>
      {| lastUpgradeTimestamp := v; upgradeHistory := upgradeHistory g;
         userPreferences := userPreferences g; ignoredWarnings := ignoredWarnings g |}
  | UPGRADE_HISTORY_KEY => fun v g =>
      {| lastUpgradeTimestamp := lastUpgradeTimestamp g; upgradeHistory := v;
         userPreferences := userPreferences g; ignoredWarnings := ignoredWarnings g |}
  | USER_PREFERENCES_KEY => fun v g =>
      {| lastUpgradeTimestamp := lastUpgradeTimestamp g; upgradeHistory := upgradeHistory g;
         userPreferences := v; ignoredWarnings := ignoredWarnings g |}
  | IGNORED_WARNINGS_KEY => fun v g =>
      {| lastUpgradeTimestamp := lastUpgradeTimestamp g; upgradeHistory := upgradeHistory g;
         userPreferences := userPreferences g; ignoredWarnings := v |}
  end.

(* ===================================================================== *)
(** ** Effects of [async] code *)
(* ===================================================================== *)

(** Body of a registry response as the resolver reads it:
    [response.data.response.docs] mapped to each doc's [v]. [None] stands for
    a body without that path, on which the property access throws. *)
Inductive AxiosOutcome :=
| AxiosRejected (e : JS.Thrown)
| AxiosResponse (docs : option (list string)).

(** The calls that leave the extension's own code. The logger, the console
    and the notification calls return normally; [WebviewPlan] is the panel
    that shows the plan, answered by the message that settles its promise
    ([true] for approve, [false] for cancel); [UpdateDependencies] is the
    manifest rewrite of the dependency manager, answered by the error it
    throws, if any; [ChildExec] is answered by the message of the callback's
    error, if any. *)
Inductive Call : Type -> Type :=
| FsExistsSync (path : string) : Call bool
| AxiosGet (url q : string) : Call AxiosOutcome
| NvdGet (url keyword : string) : Call (option bool)
| ChildExec (command : string) : Call (option string)
| LoggerError (message : string) (args : list string) (e : JS.Thrown) : Call unit
| LoggerDebug (message : string) : Call unit
| LoggerInfo (message : string) : Call unit
| ConsoleError (message : string) : Call unit
| ShowErrorMessage (message : string) : Call unit
| ShowWarningMessage (message : string) : Call unit
| ShowInformationMessage (message : string) : Call unit
| WebviewPlan (plan : UpgradePlan) : Call bool
| WithProgress (title : string) : Call unit
| ProgressReport (message : string) : Call unit
| UpdateDependencies (updates : list DependencyUpdate) : Call (option JS.Thrown)
| DateNowISO : Call string
| MementoGet {T} (k : StateKey T) : Call (option T)
| MementoUpdate {T} (k : StateKey T) (v : option T) : Call unit.

(** An [async] function body: it returns, throws, or makes a call and goes
    on with the answer. [await] is [prog_bind]. *)
Inductive Prog (R : Type) : Type :=
| Ret (r : R)
| Throw (e : JS.Thrown)
| Vis {X : Type} (c : Call X) (k : X -> Prog R).

Arguments Ret {R} r.
Arguments Throw {R} e.
Arguments Vis {R X} c k.

Fixpoint prog_bind {A B} (p : Prog A) (f : A -> Prog B) : Prog B :=
  match p with
  | Ret a => f a
  | Throw e => Throw e
  | Vis c k => Vis c (fun x => prog_bind (k x) f)
  end.

#[global] Instance prog_ret : MRet Prog := @Ret.
#[global] Instance prog_mbind : MBind Prog := fun A B f p => prog_bind p f.

(** [try { p } catch (error) { h error }]. *)
Fixpoint try_catch {R} (p : Prog R) (h : JS.Thrown -> Prog R) : Prog R :=
  match p with
  | Ret r => Ret r
  | Throw e => h e
  | Vis c k => Vis c (fun x => try_catch (k x) h)
  end.

Definition call {X} (c : Call X) : Prog X := Vis c Ret.

(** String conversion of a promise that was not awaited (a template literal
    hole, [String(p)]): the promise's settled value plays no part. *)
Definition promise_to_string {A} (p : Prog A) : string := "[object Promise]".

(** One interaction: the call and the answer it got. *)
Record Event := mkEvent {
  ev_type : Type;
  ev_call : Call ev_type;
  ev_answer : ev_type
}.

(** The world the extension runs in: the files present (paths as the code
    names them, relative to the working directory), the durable store, and
    the interactions so far, oldest first. *)
Record World := {
  files : gset string;
  globalState : GlobalState;
  trace : list Event
}.

(** Everything outside the extension: given the interactions so far, the
    answer to a call. *)
Definition Env := forall X, Call X -> list Event -> X.

Inductive Outcome (R : Type) :=
| Returned (r : R)
| Rejected (e : JS.Thrown).

Arguments Returned {R} r.
Arguments Rejected {R} e.

(** Answer to one call: the file system and the store answer from the world,
    the rest from the environment. *)
Definition perform {X} (c : Call X) (env : Env) (w : World) : X * World :=
  let record (x : X) (g : GlobalState) :=
    (x, {| files := files w; globalState := g; trace := trace w ++ [mkEvent X c x] |}) in
  match c in Call X return (X -> GlobalState -> X * World) -> X * World with
  | FsExistsSync path => fun record => record (bool_decide (path ∈ files w)) (globalState w)
  | MementoGet k => fun record => record (memento_get k (globalState w)) (globalState w)
  | MementoUpdate k v => fun record => record tt (memento_update k v (globalState w))
  | c' => fun record => record (env _ c' (trace w)) (globalState w)
  end record.

Fixpoint run {R} (p : Prog R) (env : Env) (w : World) : Outcome R * World :=
  match p with
  | Ret r => (Returned r, w)
  | Throw e => (Rejected e, w)
  | Vis c k => let '(x, w') := perform c env w in run (k x) env w'
  end.

(** The interactions a run added to the trace. *)
Definition new_events (w w' : World) : list Event := drop (length (trace w)) (trace w').

(* ===================================================================== *)
(** ** services/upgradePlanGenerator.ts *)
(* ===================================================================== *)

Module UpgradePlanGenerator.

Definition determineTargetJavaVersion (currentVersion : string) : Prog string :=
  let majorVersion := JS.parseInt (JS.first (JS.split "." currentVersion)) in
  if JS.lt majorVersion 11 then Ret "11"
  else if JS.lt majorVersion 17 then Ret "17"
  else if JS.lt majorVersion 21 then Ret "21"
  else Ret currentVersion.

(** Own properties of the [versionMap] object literal. *)
Definition versionMap : gmap string string :=
  list_to_map
    [("1.5", "2.7.18"); ("2.0", "2.7.18"); ("2.1", "2.7.18"); ("2.2", "2.7.18");
     ("2.3", "2.7.18"); ("2.4", "2.7.18"); ("2.5", "2.7.18"); ("2.6", "2.7.18");
     ("2.7", "3.2.0")].

(** Names the literal inherits from [Object.prototype]; each one reads as
    an object or a function, hence truthy. *)
Definition object_prototype_members : list string :=
  ["constructor"; "__defineGetter__"; "__defineSetter__"; "hasOwnProperty";
   "__lookupGetter__"; "__lookupSetter__"; "isPrototypeOf";
   "propertyIsEnumerable"; "toString"; "valueOf"; "__proto__";
   "toLocaleString"].

(** [versionMap[key]]; [None] is [undefined]. *)
Definition versionMap_get (key : string) : option SpringTarget :=
  match versionMap !! key with
  | Some v => Some (SpringVersion v)
  | None =>
      if bool_decide (key ∈ object_prototype_members)
      then Some (ObjectPrototypeMember key)
      else None
  end.

Definition determineSpringBootVersion (currentVersion : option string)
  : Prog (option SpringTarget) :=
  match currentVersion with
  | None => Ret None
  | Some v =>
      if negb (JS.truthy v) then Ret None
      else
        let majorMinor := JS.join "." (JS.slice0 2 (JS.split "." v)) in
        Ret (Some (default (SpringVersion "3.2.0") (versionMap_get majorMinor)))
  end.

(** The call to [determineTargetJavaVersion] in the template literal is
    not awaited: the hole receives the promise. *)
Definition determineOpenRewriteRecipes (projectInfo : ProjectInfo) : Prog (list string) :=
  let recipes : list string := [] in
  let recipes :=
    recipes ++ ["org.openrewrite.java.migrate.UpgradeToJava"
                +:+ promise_to_string
                      (determineTargetJavaVersion (currentJavaVersion projectInfo))] in
  let recipes :=
    if JS.truthy_opt (springBootVersion projectInfo)
    then recipes ++ ["org.openrewrite.java.spring.boot3.UpgradeSpringBoot_3_2"]
    else recipes in
  let recipes :=
    recipes ++ ["org.openrewrite.java.migrate.JavaModernizer";
                "org.openrewrite.java.migrate.UpgradeJavaVersion"] in
  Ret recipes.

Definition findLatestVersion (dependency : Dependency) : Prog (option string) :=
  Ret None.

(** The [for (const dep of dependencies)] loop, [updates] being the array
    built so far. *)
Fixpoint determineDependencyUpdates_loop (updates : list DependencyUpdate)
    (dependencies : list Dependency) : Prog (list DependencyUpdate) :=
  match dependencies with
  | [] => Ret updates
  | dep :: rest =>
      latestVersion ← findLatestVersion dep;
      match latestVersion with
      | Some latest =>
          if JS.truthy latest && negb (bool_decide (latest = version dep))
          then determineDependencyUpdates_loop
                 (updates ++ [{| upd_groupId := groupId dep;
                                 upd_artifactId := artifactId dep;
                                 fromVersion := version dep;
                                 toVersion := latest |}]) rest
          else determineDependencyUpdates_loop updates rest
      | None => determineDependencyUpdates_loop updates rest
      end
  end.

Definition determineDependencyUpdates (dependencies : list Dependency)
  : Prog (list DependencyUpdate) :=
  determineDependencyUpdates_loop [] dependencies.

Definition generatePlan (projectInfo : ProjectInfo) : Prog UpgradePlan :=
  jv ← determineTargetJavaVersion (currentJavaVersion projectInfo);
  sb ← determineSpringBootVersion (springBootVersion projectInfo);
  rs ← determineOpenRewriteRecipes projectInfo;
  du ← determineDependencyUpdates (dependencies projectInfo);
  Ret {| javaVersion := jv; plan_springBootVersion := sb;
         recipes := rs; dependencyUpdates := du |}.

End UpgradePlanGenerator.

(* ===================================================================== *)
(** ** services/dependencyResolver (the resolver with [checkConflicts]) *)
(* ===================================================================== *)

Module DependencyResolver.

Definition mavenCentral : string := "https://search.maven.org/solrsearch/select".

(** The [q] parameter: [g:"<groupId>" AND a:"<artifactId>"]. *)
Definition solr_query (dependency : Dependency) : string :=
  "g:" +:+ JS.dquote +:+ groupId dependency +:+ JS.dquote
  +:+ " AND a:" +:+ JS.dquote +:+ artifactId dependency +:+ JS.dquote.

Definition fetchAvailableVersions (dependency : Dependency) : Prog (list string) :=
  let query := solr_query dependency in
  response ← call (AxiosGet mavenCentral query);
  match response with
  | AxiosRejected e => Throw e
  | AxiosResponse None =>
      Throw (JS.ErrorObject JS.TypeError "Cannot read properties of undefined")
  | AxiosResponse (Some versions) => Ret versions
  end.

(** [versions[0] || null]. *)
Definition findBestVersion (versions : list string) (constraints : VersionConstraints)
  : option string :=
  match versions with
  | v :: _ => if JS.truthy v then Some v else None
  | [] => None
  end.

Definition resolveLatestVersion (dependency : Dependency)
    (constraints : VersionConstraints) : Prog (option string) :=
  try_catch
    (versions ← fetchAvailableVersions dependency;
     Ret (findBestVersion versions constraints))
    (fun error =>
       _ ← call (LoggerError "Failed to resolve latest version for {0}:{1}"
                   [groupId dependency; artifactId dependency] error);
       Ret None).

(** [Map<string, Set<string>>], both in insertion order. *)
Definition VersionMap := list (string * list string).

Fixpoint map_get (key : string) (m : VersionMap) : option (list string) :=
  match m with
  | [] => None
  | (k, vs) :: rest => if bool_decide (k = key) then Some vs else map_get key rest
  end.

(** [m.set(key, vs)]: an existing key keeps its position. *)
Fixpoint map_set (key : string) (vs : list string) (m : VersionMap) : VersionMap :=
  match m with
  | [] => [(key, vs)]
  | (k, old) :: rest =>
      if bool_decide (k = key) then (k, vs) :: rest else (k, old) :: map_set key vs rest
  end.

(** [s.add(v)]. *)
Definition set_add (v : string) (s : list string) : list string :=
  if bool_decide (v ∈ s) then s else s ++ [v].

(** First loop of [checkConflicts]: build the version map. *)
Fixpoint build_version_map (versionMap : VersionMap) (dependencies : list Dependency)
  : VersionMap :=
  match dependencies with
  | [] => versionMap
  | dep :: rest =>
      let key := groupId dep +:+ ":" +:+ artifactId dep in
      let versions := default [] (map_get key versionMap) in
      let versions := set_add (version dep) versions in
      build_version_map (map_set key versions versionMap) rest
  end.

(** Body of the second loop, folded over what the loop iterates. *)
Fixpoint find_conflicts (conflicts : list DependencyConflict)
    (iterated : list (string * list string)) : list DependencyConflict :=
  match iterated with
  | [] => conflicts
  | (key, versions) :: rest =>
      if (1 <? length versions)%nat
      then
        let parts := JS.split ":" key in
        find_conflicts
          (conflicts ++ [{| conflict_groupId := JS.first parts;
                            conflict_artifactId := nth 1 parts "";
                            conflict_versions := versions |}]) rest
      else find_conflicts conflicts rest
  end.

(** How [for (const [key, versions] of f)] runs when [f] is a function
    object: by the iteration protocol of the language, or lowered to an
    index loop over [f.length] as a compiler targeting ES5 emits it. *)
Inductive ForOf := IterationProtocol | IndexLoop.

(** The second loop iterates [versionMap.entries], the method itself: it
    is not called. A function object has no [Symbol.iterator], so the
    protocol throws; its [length] is its arity 0, so the index loop makes
    no iteration. Either way no entry of [versionMap] is visited. *)
Definition for_of_entries_method (mode : ForOf) (versionMap : VersionMap)
  : Prog (list (string * list string)) :=
  match mode with
  | IterationProtocol =>
      Throw (JS.ErrorObject JS.TypeError "versionMap.entries is not iterable")
  | IndexLoop => Ret []
  end.

Definition checkConflicts (mode : ForOf) (dependencies : list Dependency)
  : Prog (list DependencyConflict) :=
  let conflicts : list DependencyConflict := [] in
  let versionMap := build_version_map [] dependencies in
  iterated ← for_of_entries_method mode versionMap;
  Ret (find_conflicts conflicts iterated).

End DependencyResolver.

(* ===================================================================== *)
(** ** services/openRewriteService *)
(* ===================================================================== *)

Module OpenRewriteService.

(** [exec]'s callback error, when there is one, is an [ExecException]. *)
Definition recipe_command (recipe : string) : string :=
  "./mvnw org.openrewrite.maven:rewrite-maven-plugin:run -Drewrite.recipeArtifactCoordinates="
  +:+ recipe.

Definition executeRecipe (recipe : string) : Prog unit :=
  let command := recipe_command recipe in
  error ← call (ChildExec command);
  match error with
  | Some message => Throw (JS.ErrorObject JS.ExecException message)
  | None => Ret tt
  end.

Definition rethrow (recipe : string) (error : JS.Thrown) : JS.Thrown :=
  match error with
  | JS.ErrorObject _ message =>
      JS.ErrorObject JS.PlainError ("Failed to apply recipe " +:+ recipe +:+ ": " +:+ message)
  | JS.NonError =>
      JS.ErrorObject JS.PlainError ("Failed to apply recipe " +:+ recipe +:+ ": Unknown error")
  end.

Fixpoint applyRecipes (recipes : list string) : Prog unit :=
  match recipes with
  | [] => Ret tt
  | recipe :: rest =>
      _ ← try_catch (executeRecipe recipe) (fun error => Throw (rethrow recipe error));
      applyRecipes rest
  end.

End OpenRewriteService.

(* ===================================================================== *)
(** ** services/projectAnalyzer *)
(* ===================================================================== *)

Module ProjectAnalyzer.

Definition detectBuildSystem : Prog BuildSystem :=
  pomExists ← call (FsExistsSync "pom.xml");
  gradleExists ←
    (g ← call (FsExistsSync "build.gradle");
     if (g : bool) then Ret true else call (FsExistsSync "build.gradle.kts"));
  if (pomExists : bool) then Ret maven
  else if (gradleExists : bool) then Ret gradle
  else Throw (JS.ErrorObject JS.PlainError "No supported build system detected").

Definition analyzeMavenDependencies : Prog (list Dependency) := Ret [].
Definition analyzeGradleDependencies : Prog (list Dependency) := Ret [].

Definition analyzeDependencies : Prog (list Dependency) :=
  buildSystem ← detectBuildSystem;
  match buildSystem with
  | maven => analyzeMavenDependencies
  | gradle => analyzeGradleDependencies
  end.

Definition detectJavaVersion : Prog string := Ret "detected-version".

Definition detectSpringBootVersion : Prog (option string) := Ret None.

Definition analyzeProject : Prog ProjectInfo :=
  bs ← detectBuildSystem;
  jv ← detectJavaVersion;
  deps ← analyzeDependencies;
  sb ← detectSpringBootVersion;
  Ret {| buildSystem := bs; currentJavaVersion := jv;
         dependencies := deps; springBootVersion := sb |}.

End ProjectAnalyzer.

(* ===================================================================== *)
(** ** services/workspaceStateManager *)
(* ===================================================================== *)

Module WorkspaceStateManager.

Definition getUpgradeHistory : Prog (list UpgradeHistoryEntry) :=
  stored ← call (MementoGet UPGRADE_HISTORY_KEY);
  Ret (default [] stored).

Definition recordUpgradeStart (info : UpgradeInfo) : Prog unit :=
  now ← call DateNowISO;
  _ ← call (MementoUpdate LAST_UPGRADE_KEY (Some now));
  history ← getUpgradeHistory;
  let history :=
    history ++ [{| entry_info := info; timestamp := now;
                   completedAt := None; status := in_progress |}] in
  _ ← call (MementoUpdate UPGRADE_HISTORY_KEY (Some history));
  call (LoggerDebug "Recorded upgrade start: {0}").

Definition getIgnoredWarnings : Prog (list string) :=
  stored ← call (MementoGet IGNORED_WARNINGS_KEY);
  Ret (default [] stored).

(** [list.includes(x)] on strings. *)
Definition includes (x : string) (l : list string) : bool := bool_decide (x ∈ l).

Definition ignoreWarning (warningId : string) : Prog unit :=
  ignoredWarnings ← getIgnoredWarnings;
  if negb (includes warningId ignoredWarnings)
  then call (MementoUpdate IGNORED_WARNINGS_KEY (Some (ignoredWarnings ++ [warningId])))
  else Ret tt.

Definition isWarningIgnored (warningId : string) : Prog bool :=
  ignoredWarnings ← getIgnoredWarnings;
  Ret (includes warningId ignoredWarnings).


End WorkspaceStateManager.

(* ===================================================================== *)
(** ** services/cveValidator *)
(* ===================================================================== *)

Module CVEValidator.

Definition nvdApiUrl : string := "https://services.nvd.nist.gov/rest/json/cves/2.0".

Definition getCurrentDependencies : Prog (list Dependency) := Ret [].

Definition getIssues : Prog (list CVEIssue) := Ret [].

(** The answer of [NvdGet] is [None] when the request throws, else whether
    the body has a truthy [vulnerabilities]. *)
Fixpoint checkDependencies_loop (issues : list CVEIssue) (dependencies : list Dependency)
  : Prog (list CVEIssue) :=
  match dependencies with
  | [] => Ret issues
  | dep :: rest =>
      let keyword := groupId dep +:+ ":" +:+ artifactId dep +:+ ":" +:+ version dep in
      response ← call (NvdGet nvdApiUrl keyword);
      match response with
      | Some true =>
          checkDependencies_loop (issues ++ [{| cve_dependency := dep |}]) rest
      | Some false => checkDependencies_loop issues rest
      | None =>
          _ ← call (ConsoleError ("Error checking CVEs for " +:+ groupId dep
                                   +:+ ":" +:+ artifactId dep));
          checkDependencies_loop issues rest
      end
  end.

Fixpoint reportIssues (issues : list CVEIssue) : Prog unit :=
  match issues with
  | [] => Ret tt
  | issue :: rest =>
      _ ← call (ShowWarningMessage
                  ("CVE found in dependency " +:+ groupId (cve_dependency issue)
                   +:+ ":" +:+ artifactId (cve_dependency issue)));
      reportIssues rest
  end.

Definition validate : Prog unit :=
  dependencies ← getCurrentDependencies;
  issues ← checkDependencies_loop [] dependencies;
  if (0 <? length issues)%nat then reportIssues issues else Ret tt.

End CVEValidator.

(* ===================================================================== *)
(** ** extension.ts: the [java.upgrade.start] command *)
(* ===================================================================== *)

Module Extension.

Definition fixBuildIssues : Prog unit := Ret tt.
Definition runTests : Prog unit := Ret tt.
Definition checkBuild : Prog bool := Ret true.
Definition checkTests : Prog bool := Ret true.
Definition getChangeSummary : Prog (list string) := Ret [].

(** [dependencyManagerService.updateDependencies]: the manifest rewrite is
    a collaborator; its answer is the error it throws, if any. *)
Definition updateDependencies (updates : list DependencyUpdate) : Prog unit :=
  error ← call (UpdateDependencies updates);
  match error with
  | Some e => Throw e
  | None => Ret tt
  end.

Definition executeUpgrade (plan : UpgradePlan) : Prog unit :=
  _ ← call (WithProgress "Upgrading Java Project");
  _ ← call (ProgressReport "Applying code transformations...");
  _ ← OpenRewriteService.applyRecipes (recipes plan);
  _ ← call (ProgressReport "Updating dependencies...");
  _ ← updateDependencies (dependencyUpdates plan);
  _ ← call (ProgressReport "Fixing build issues...");
  _ ← fixBuildIssues;
  _ ← call (ProgressReport "Running tests...");
  _ ← runTests;
  _ ← call (ProgressReport "Checking for vulnerabilities...");
  CVEValidator.validate.

Definition showUpgradeSummary (results : UpgradeResults) : Prog unit :=
  let indent := JS.nl +:+ "        " in
  let message :=
    "Upgrade Results:"
    +:+ indent +:+ "Build: " +:+ (if buildSuccess results then "Success" else "Failed")
    +:+ indent +:+ "Tests: " +:+ (if testsPassing results then "Passing" else "Failed")
    +:+ indent +:+ "CVE Issues: " +:+ pretty (length (cveIssues results))
    +:+ indent +:+ "Changes: " +:+ pretty (length (changes results)) in
  call (ShowInformationMessage message).

Definition validateResults : Prog unit :=
  b ← checkBuild;
  t ← checkTests;
  i ← CVEValidator.getIssues;
  c ← getChangeSummary;
  showUpgradeSummary {| buildSuccess := b; testsPassing := t;
                        cveIssues := i; changes := c |}.

(** The webview panel showing the plan; the promise resolves with [true]
    on an [approve] message and [false] on a [cancel] message, which is the
    answer of [WebviewPlan]. *)
Definition showUpgradePlan (plan : UpgradePlan) : Prog bool :=
  call (WebviewPlan plan).

Definition errorMessage (error : JS.Thrown) : string :=
  match error with
  | JS.ErrorObject _ message => message
  | JS.NonError => "Unknown error occurred"
  end.

(** The handler registered for [java.upgrade.start]. *)
Definition startUpgrade : Prog unit :=
  try_catch
    (projectInfo ← ProjectAnalyzer.analyzeProject;
     upgradePlan ← UpgradePlanGenerator.generatePlan projectInfo;
     userApproved ← showUpgradePlan upgradePlan;
     if negb userApproved then Ret tt
     else
       _ ← executeUpgrade upgradePlan;
       validateResults)
    (fun error => call (ShowErrorMessage ("Upgrade failed: " +:+ errorMessage error))).

End Extension.

(* ===================================================================== *)
(** ** Observations on runs *)
(* ===================================================================== *)

(** The call shows the plan to the user. *)
Definition is_webview_call {X} (c : Call X) : bool :=
  match c with
  | WebviewPlan _ => true
  | _ => false
  end.

(** The call writes to the durable store. *)
Definition is_store_write_call {X} (c : Call X) : bool :=
  match c with
  | MementoUpdate _ _ => true
  | _ => false
  end.

(** The call starts an external process. *)
Definition is_exec_call {X} (c : Call X) : bool :=
  match c with
  | ChildExec _ => true
  | _ => false
  end.

(** The interaction is an external process started by the transformation
    runner. *)
Definition is_recipe_exec (ev : Event) : bool := is_exec_call (ev_call ev).

(** The interaction is the user cancelling the plan shown to them. *)
Definition is_plan_rejection (ev : Event) : bool :=
  match ev_call ev in Call X return X -> bool with
  | WebviewPlan _ => fun approved => negb approved
  | _ => fun _ => false
  end (ev_answer ev).

(** The interaction is an external process that ended in an error with this
    message, for this command. *)
Definition is_exec_failure (command message : string) (ev : Event) : bool :=
  match ev_call ev in Call X return X -> bool with
  | ChildExec c => fun r => bool_decide (c = command) && bool_decide (r = Some message)
  | _ => fun _ => false
  end (ev_answer ev).

(** The interaction is the logger being handed this error. *)
Definition is_logged_error (e : JS.Thrown) (ev : Event) : bool :=
  match ev_call ev with
  | LoggerError _ _ e' => bool_decide (e' = e)
  | _ => false
  end.

(** Every call a program can make, on any path, satisfies [P]. *)
Inductive all_calls (P : forall X, Call X -> Prop) {R : Type} : Prog R -> Prop :=
| all_calls_ret (r : R) : all_calls P (Ret r)
| all_calls_throw (e : JS.Thrown) : all_calls P (Throw e)
| all_calls_vis {X} (c : Call X) (k : X -> Prog R) :
    P X c -> (forall x, all_calls P (k x)) -> all_calls P (Vis c k).

(** Calls made before the user has answered, and after they approved. *)
Definition quiet_call (X : Type) (c : Call X) : Prop :=
  is_webview_call c = false /\ is_exec_call c = false /\ is_store_write_call c = false.

Definition upgrade_call (X : Type) (c : Call X) : Prop :=
  is_webview_call c = false /\ is_store_write_call c = false.

(* ===================================================================== *)
(** ** Sample environments and worlds *)
(* ===================================================================== *)

(** An environment in which nothing fails and the user cancels: no file
    answer is taken from it. *)
Definition quiet_env : Env :=
  fun X c _ =>
    match c in Call X return X with
    | FsExistsSync _ => false
    | AxiosGet _ _ => AxiosResponse (Some [])
    | NvdGet _ _ => Some false
    | ChildExec _ => None
    | LoggerError _ _ _ => tt
    | LoggerDebug _ => tt
    | LoggerInfo _ => tt
    | ConsoleError _ => tt
    | ShowErrorMessage _ => tt
    | ShowWarningMessage _ => tt
    | ShowInformationMessage _ => tt
    | WebviewPlan _ => false
    | WithProgress _ => tt
    | ProgressReport _ => tt
    | UpdateDependencies _ => None
    | DateNowISO => "2024-01-01T00:00:00.000Z"
    | MementoGet _ => None
    | MementoUpdate _ _ => tt
    end.

(** The same environment with a given answer of the package registry. *)
Definition registry_env (answer : AxiosOutcome) : Env :=
  fun X c h =>
    match c in Call X return X -> X with
    | AxiosGet _ _ => fun _ => answer
    | _ => fun x => x
    end (quiet_env X c h).

(** The same environment where every external process fails with a given
    message. *)
Definition failing_exec_env (message : string) : Env :=
  fun X c h =>
    match c in Call X return X -> X with
    | ChildExec _ => fun _ => Some message
    | _ => fun x => x
    end (quiet_env X c h).

(** The same environment where the user approves the plan. *)
Definition approving_env : Env :=
  fun X c h =>
    match c in Call X return X -> X with
    | WebviewPlan _ => fun _ => true
    | _ => fun x => x
    end (quiet_env X c h).

Definition empty_store : GlobalState :=
  {| lastUpgradeTimestamp := None; upgradeHistory := None;
     userPreferences := None; ignoredWarnings := None |}.

(** A fresh world with the given files. *)
Definition world_with (present : list string) : World :=
  {| files := list_to_set present; globalState := empty_store; trace := [] |}.

(** The machine the extension host runs on: the absolute paths present, the
    working directory of the extension-host process, against which [fs]
    resolves a relative path, and the folders open in the editor
    ([vscode.workspace.workspaceFolders], as file-system paths). *)
Record Host := {
  paths : gset string;
  cwd : string;
  workspaceFolders : list string
}.

(** [vscode.workspace.workspaceFolders?.[0]?.uri.fsPath || ''], the workspace
    root as the Git and the backup service take it. *)
Definition workspaceRoot (host : Host) : string :=
  default "" (head (workspaceFolders host)).

(** A directory as the prefix of the paths below it. *)
Definition dir_prefix (dir : string) : string :=
  if bool_decide (dir = "/") then "/" else dir +:+ "/".

(** The absolute path of a plain relative name under a directory. *)
Definition path_under (dir name : string) : string := dir_prefix dir +:+ name.

(** What is left of [s] after the prefix [pre], if it starts with it. *)
Fixpoint strip_prefix (pre s : string) : option string :=
  match pre, s with
  | EmptyString, _ => Some s
  | String a pre', String b s' =>
      if bool_decide (a = b) then strip_prefix pre' s' else None
  | String _ _, EmptyString => None
  end.

(** The relative names [fs] resolves to a present path: those below the
    working directory. *)
Definition files_seen (host : Host) : gset string :=
  list_to_set (omap (strip_prefix (dir_prefix (cwd host))) (elements (paths host))).

(** A fresh world on a host. *)
Definition host_world (host : Host) : World :=
  {| files := files_seen host; globalState := empty_store; trace := [] |}.

(** A host with a Maven project open in the editor, the extension host
    started elsewhere. *)
Definition project_elsewhere : Host :=
  {| paths := list_to_set ["/home/dev/shop/pom.xml"; "/home/dev/shop/src/main/java/Shop.java";
                           "/usr/share/code/LICENSE"];
     cwd := "/usr/share/code";
     workspaceFolders := ["/home/dev/shop"] |}.

(** A host with a folder without manifest open in the editor, the extension
    host started in a Maven project. *)
Definition manifest_elsewhere : Host :=
  {| paths := list_to_set ["/home/dev/notes/README.md"; "/home/dev/tool/pom.xml"];
     cwd := "/home/dev/tool";
     workspaceFolders := ["/home/dev/notes"] |}.

(* ===================================================================== *)
(** ** Vocabulary of the properties *)
(* ===================================================================== *)

(** The error of the taxonomy named BuildSystemNotFound: the sources throw
    a plain [Error] with this message. *)
Definition BuildSystemNotFound : JS.Thrown :=
  JS.ErrorObject JS.PlainError "No supported build system detected".

(** The persisted list of ignored warnings, as [getIgnoredWarnings] reads
    it: an absent key reads as the empty list. *)
Definition stored_ignored (w : World) : list string :=
  default [] (ignoredWarnings (globalState w)).

(** The world after [ignoreWarning warningId]. *)
Definition after_ignoreWarning (warningId : string) (env : Env) (w : World) : World :=
  (run (WorkspaceStateManager.ignoreWarning warningId) env w).2.

(** Decimal numerals, to relate [parseInt] to the number a version string
    starts with. *)
Definition digit_char (d : Z) : ascii := ascii_of_N (Z.to_N (48 + d)).

Fixpoint digits_string (ds : list Z) : string :=
  match ds with
  | [] => EmptyString
  | d :: rest => String (digit_char d) (digits_string rest)
  end.

Definition digits_value (ds : list Z) : Z := fold_left (fun acc d => acc * 10 + d) ds 0.

Definition is_digit (d : Z) : Prop := 0 <= d <= 9.

Definition no_dot (s : string) : Prop :=
  forall i, String.get i s <> Some "."%char.

(** The major version the plan generator reads off a version string: NaN is
    [None]. *)
Definition major_of (currentVersion : string) : option Z :=
  JS.parseInt (JS.first (JS.split "." currentVersion)).

(** The recipe list [determineOpenRewriteRecipes] builds, as a value. *)
Definition recipes_of (projectInfo : ProjectInfo) : list string :=
  "org.openrewrite.java.migrate.UpgradeToJava[object Promise]"
  :: (if JS.truthy_opt (springBootVersion projectInfo)
      then ["org.openrewrite.java.spring.boot3.UpgradeSpringBoot_3_2"] else [])
  ++ ["org.openrewrite.java.migrate.JavaModernizer";
      "org.openrewrite.java.migrate.UpgradeJavaVersion"].

(** What the registry answers to the query for a dependency, at a world. *)
Definition registry_answer (env : Env) (w : World) (dependency : Dependency) : AxiosOutcome :=
  env _ (AxiosGet DependencyResolver.mavenCentral (DependencyResolver.solr_query dependency)) (trace w).

(* ===================================================================== *)
(** ** services/workspaceStateManager: history status and preferences *)
(* ===================================================================== *)

Module UpgradeHistory.

(** [history[history.length - 1]] is assigned in place: the entry keeps its
    position, its info and its timestamp. *)
Definition updateUpgradeStatus (newStatus : UpgradeStatus) : Prog unit :=
  history ← WorkspaceStateManager.getUpgradeHistory;
  match history !! (length history - 1)%nat with
  | Some lastUpgrade =>
      now ← call DateNowISO;
      let lastUpgrade :=
        {| entry_info := entry_info lastUpgrade; timestamp := timestamp lastUpgrade;
           completedAt := Some now; status := newStatus |} in
      call (MementoUpdate UPGRADE_HISTORY_KEY
              (Some (<[(length history - 1)%nat := lastUpgrade]> history)))
  | None => Ret tt
  end.

End UpgradeHistory.

Module UserPreferences.

Definition getUserPreferences : Prog (gmap string string) :=
  stored ← call (MementoGet USER_PREFERENCES_KEY);
  Ret (default ∅ stored).

(** [preferences[key] = value] on a plain object, as far as its own
    properties go: the key [__proto__] reaches the prototype setter and
    creates no property. *)
Definition object_assign (key value : string) (preferences : gmap string string)
  : gmap string string :=
  if bool_decide (key = "__proto__") then preferences else <[key := value]> preferences.

Definition savePreference (key value : string) : Prog unit :=
  preferences ← getUserPreferences;
  let preferences := object_assign key value preferences in
  call (MementoUpdate USER_PREFERENCES_KEY (Some preferences)).

End UserPreferences.

(** The stored history and preferences as the getters read them. *)
Definition stored_history (w : World) : list UpgradeHistoryEntry :=
  default [] (upgradeHistory (globalState w)).

Definition stored_preferences (w : World) : gmap string string :=
  default ∅ (userPreferences (globalState w)).

(** The timestamp the environment hands out at a world. *)
Definition now_at (env : Env) (w : World) : string := env _ DateNowISO (trace w).

(* ===================================================================== *)
(** ** Vocabulary of the further properties *)
(* ===================================================================== *)

(** The interactions of a run of [p] from [w]. *)
Definition events_of {R} (p : Prog R) (env : Env) (w : World) : list Event :=
  new_events w (run p env w).2.

(** A call without an answer to speak of. *)
Definition notified (c : Call unit) : Event := mkEvent unit c tt.

(** The external process of a recipe, ended well or with an error message. *)
Definition exec_ok (recipe : string) : Event :=
  mkEvent (option string) (ChildExec (OpenRewriteService.recipe_command recipe)) None.

Definition exec_failed (recipe message : string) : Event :=
  mkEvent (option string) (ChildExec (OpenRewriteService.recipe_command recipe)) (Some message).

(** The error [applyRecipes] throws for a recipe. *)
Definition recipe_error (recipe message : string) : JS.Thrown :=
  JS.ErrorObject JS.PlainError ("Failed to apply recipe " +:+ recipe +:+ ": " +:+ message).

(** The interactions every [executeUpgrade] starts with. *)
Definition upgrade_started : list Event :=
  [notified (WithProgress "Upgrading Java Project");
   notified (ProgressReport "Applying code transformations...")].

(** The interactions of [executeUpgrade] after a dependency update that
    went well. *)
Definition upgrade_finished : list Event :=
  [notified (ProgressReport "Fixing build issues...");
   notified (ProgressReport "Running tests...");
   notified (ProgressReport "Checking for vulnerabilities...")].

(** The dependency update of a plan, with the error it threw, if any. *)
Definition dependencies_updated (plan : UpgradePlan) (error : option JS.Thrown) : list Event :=
  [notified (ProgressReport "Updating dependencies...");
   mkEvent (option JS.Thrown) (UpdateDependencies (dependencyUpdates plan)) error].

(** The summary [validateResults] shows. *)
Definition success_summary : string :=
  "Upgrade Results:"
  +:+ JS.nl +:+ "        Build: Success"
  +:+ JS.nl +:+ "        Tests: Passing"
  +:+ JS.nl +:+ "        CVE Issues: 0"
  +:+ JS.nl +:+ "        Changes: 0".

(** What [analyzeProject] resolves with: everything but the build system
    comes from stubs. *)
Definition stub_project (bs : BuildSystem) : ProjectInfo :=
  {| buildSystem := bs; currentJavaVersion := "detected-version";
     dependencies := []; springBootVersion := None |}.

(** The plan [generatePlan] makes of it. *)
Definition stub_plan : UpgradePlan :=
  {| javaVersion := "detected-version"; plan_springBootVersion := None;
     recipes := ["org.openrewrite.java.migrate.UpgradeToJava[object Promise]";
                 "org.openrewrite.java.migrate.JavaModernizer";
                 "org.openrewrite.java.migrate.UpgradeJavaVersion"];
     dependencyUpdates := [] |}.

(** The error notification of the start-upgrade handler. *)
Definition error_shown (e : JS.Thrown) : Event :=
  notified (ShowErrorMessage ("Upgrade failed: " +:+ Extension.errorMessage e)).

(** The plan shown to the user, with their answer. *)
Definition plan_shown (plan : UpgradePlan) (approved : bool) : Event :=
  mkEvent bool (WebviewPlan plan) approved.

(** The upgrade body of the handler, once the plan is approved. *)
Definition approved_upgrade (plan : UpgradePlan) : Prog unit :=
  prog_bind (Extension.executeUpgrade plan) (fun _ => Extension.validateResults).

(** The call asks whether a file exists. *)
Definition is_probe_call {X} (c : Call X) : bool :=
  match c with
  | FsExistsSync _ => true
  | _ => false
  end.

(** The key [determineSpringBootVersion] looks up: the first two
    dot-separated segments. *)
Definition major_minor (v : string) : string := JS.join "." (JS.slice0 2 (JS.split "." v)).

(* ===================================================================== *)
(** ** Numbers read off version strings *)
(* ===================================================================== *)

Module JSNumber.

(** The numbers [parseInt] can give: NaN, an integer-valued double, or an
    infinity. *)
Inductive Number := NaN | Finite (z : Z) | PlusInfinity | MinusInfinity.

(** The double nearest to an integer, ties to the even mantissa: exact
    below 2^53, an infinity from 2^1024 on. *)
Definition round_to_double (n : Z) : Number :=
  let a := Z.abs n in
  if a <? 2 ^ 53 then Finite n
  else
    let e := Z.log2 a - 52 in
    let q := a / 2 ^ e in
    let r := a mod 2 ^ e in
    let half := 2 ^ (e - 1) in
    let q' := if (half <? r) || ((r =? half) && Z.odd q) then q + 1 else q in
    let v := q' * 2 ^ e in
    if 2 ^ 1024 <=? v
    then (if 0 <? n then PlusInfinity else MinusInfinity)
    else Finite (Z.sgn n * v).

(** [parseInt(s)] as a number. *)
Definition parseInt (s : string) : Number :=
  match JS.parseInt s with
  | Some n => round_to_double n
  | None => NaN
  end.

(** [a > b]. *)
Definition gt (a b : Number) : bool :=
  match a, b with
  | NaN, _ | _, NaN => false
  | Finite x, Finite y => y <? x
  | PlusInfinity, PlusInfinity => false
  | PlusInfinity, _ => true
  | _, PlusInfinity => false
  | MinusInfinity, _ => false
  | Finite _, MinusInfinity => true
  end.

End JSNumber.

(* ===================================================================== *)
(** ** services/dependencyResolver: suggestions, validation, the info cache *)
(* ===================================================================== *)

Inductive UpdateType := major_update | minor_update | patch_update.

Record ParsedVersion := {
  pv_major : JSNumber.Number;
  pv_minor : JSNumber.Number;
  pv_patch : JSNumber.Number
}.

(** [DependencyUpdate] of the resolver (the plan generator has its own). *)
Record SuggestedUpdate := {
  sug_dependency : Dependency;
  suggestedVersion : string;
  updateType : UpdateType
}.

Record DependencyInfo := {
  coordinates : Dependency;
  info_javaVersion : string;
  transitiveDependencies : option (list Dependency)
}.

Record DependencyValidationResult := {
  val_dependency : Dependency;
  compatible : bool;
  warnings : option (list string);
  errors : option (list (option string))
}.

Module DependencyResolverRest.

(** [const [major = 0, minor = 0, patch = 0] = version.split('.').map(v =>
    parseInt(v))]: a default stands in for a missing segment only, not for
    one that reads NaN. *)
Definition parseVersion (version : string) : ParsedVersion :=
  let numbers := map JSNumber.parseInt (JS.split "." version) in
  {| pv_major := default (JSNumber.Finite 0) (numbers !! 0%nat);
     pv_minor := default (JSNumber.Finite 0) (numbers !! 1%nat);
     pv_patch := default (JSNumber.Finite 0) (numbers !! 2%nat) |}.

Definition determineUpdateType (currentVersion newVersion : string) : UpdateType :=
  let current := parseVersion currentVersion in
  let next := parseVersion newVersion in
  if JSNumber.gt (pv_major next) (pv_major current) then major_update
  else if JSNumber.gt (pv_minor next) (pv_minor current) then minor_update
  else patch_update.

(** The constraints [suggestUpdates] passes: [process.env.JAVA_VERSION ||
    '17'], the variable being a parameter here. *)
Definition suggest_constraints (JAVA_VERSION : option string) : VersionConstraints :=
  {| constraint_javaVersion :=
       Some (match JAVA_VERSION with
             | Some v => if JS.truthy v then v else "17"
             | None => "17"
             end);
     minVersion := None; maxVersion := None; excludeVersions := None |}.

Fixpoint suggestUpdates_loop (JAVA_VERSION : option string) (updates : list SuggestedUpdate)
    (dependencies : list Dependency) : Prog (list SuggestedUpdate) :=
  match dependencies with
  | [] => Ret updates
  | dep :: rest =>
      latestVersion ←
        DependencyResolver.resolveLatestVersion dep (suggest_constraints JAVA_VERSION);
      match latestVersion with
      | Some latest =>
          if JS.truthy latest && negb (bool_decide (latest = version dep))
          then suggestUpdates_loop JAVA_VERSION
                 (updates ++ [{| sug_dependency := dep; suggestedVersion := latest;
                                 updateType := determineUpdateType (version dep) latest |}])
                 rest
          else suggestUpdates_loop JAVA_VERSION updates rest
      | None => suggestUpdates_loop JAVA_VERSION updates rest
      end
  end.

Definition suggestUpdates (JAVA_VERSION : option string) (dependencies : list Dependency)
  : Prog (list SuggestedUpdate) :=
  suggestUpdates_loop JAVA_VERSION [] dependencies.

(** The private [resolvedDependencies] map of one resolver, passed in and
    handed back. *)
Definition cache_key (dependency : Dependency) : string :=
  groupId dependency +:+ ":" +:+ artifactId dependency +:+ ":" +:+ version dependency.

Definition fetchDependencyInfo (dependency : Dependency) : Prog DependencyInfo :=
  Ret {| coordinates := dependency; info_javaVersion := "8";
         transitiveDependencies := Some [] |}.

(** [resolvedDependencies.get(key)!]: [None] is the [undefined] a missing
    key would give. *)
Definition getDependencyInfo (dependency : Dependency) (cache : gmap string DependencyInfo)
  : Prog (option DependencyInfo * gmap string DependencyInfo) :=
  let key := cache_key dependency in
  cache ←
    (if negb (bool_decide (is_Some (cache !! key)))
     then info ← fetchDependencyInfo dependency; Ret (<[key := info]> cache)
     else Ret cache);
  Ret (cache !! key, cache).

Definition checkCompatibility (info : option DependencyInfo) : bool := true.

Definition getCompatibilityWarnings (info : option DependencyInfo) : list string := [].

(** [info.transitiveDependencies || []]; reading the property off
    [undefined] throws. *)
Definition getTransitiveDependencies (dependency : Dependency)
    (cache : gmap string DependencyInfo)
  : Prog (list Dependency * gmap string DependencyInfo) :=
  '(info, cache) ← getDependencyInfo dependency cache;
  match info with
  | Some info => Ret (default [] (transitiveDependencies info), cache)
  | None => Throw (JS.ErrorObject JS.TypeError "Cannot read properties of undefined")
  end.

(** [[(error as Error).message]]: [None] is the [undefined] a thrown value
    that is no [Error] has there. *)
Definition thrown_message (error : JS.Thrown) : list (option string) :=
  match error with
  | JS.ErrorObject _ message => [Some message]
  | JS.NonError => [None]
  end.

(** The loop of [validateDependencyCompatibility]; a failure while getting
    the info leaves the cache as it was before the call. *)
Fixpoint validateDependencyCompatibility_loop (results : list DependencyValidationResult)
    (dependencies : list Dependency) (cache : gmap string DependencyInfo)
  : Prog (list DependencyValidationResult * gmap string DependencyInfo) :=
  match dependencies with
  | [] => Ret (results, cache)
  | dep :: rest =>
      '(result, cache) ←
        try_catch
          ('(info, cache) ← getDependencyInfo dep cache;
           Ret ({| val_dependency := dep; compatible := checkCompatibility info;
                   warnings := Some (getCompatibilityWarnings info); errors := None |},
                cache))
          (fun error =>
             _ ← call (LoggerError "Failed to validate dependency: {0}" [] error);
             Ret ({| val_dependency := dep; compatible := false;
                     warnings := None; errors := Some (thrown_message error) |},
                  cache));
      validateDependencyCompatibility_loop (results ++ [result]) rest cache
  end.

Definition validateDependencyCompatibility (dependencies : list Dependency)
    (cache : gmap string DependencyInfo)
  : Prog (list DependencyValidationResult * gmap string DependencyInfo) :=
  validateDependencyCompatibility_loop [] dependencies cache.

End DependencyResolverRest.

(** The key [checkConflicts] groups by. *)
Definition dep_key (dependency : Dependency) : string :=
  groupId dependency +:+ ":" +:+ artifactId dependency.

(** The conflict the second loop of [checkConflicts] makes of an entry. *)
Definition conflict_of_entry (entry : string * list string) : DependencyConflict :=
  {| conflict_groupId := JS.first (JS.split ":" entry.1);
     conflict_artifactId := nth 1 (JS.split ":" entry.1) "";
     conflict_versions := entry.2 |}.

(** The call is a registry query. *)
Definition is_registry_call {X} (c : Call X) : bool :=
  match c with
  | AxiosGet _ _ => true
  | _ => false
  end.

(** Every info in the cache is what [fetchDependencyInfo] makes. *)
Definition cache_of_fetches (cache : gmap string DependencyInfo) : Prop :=
  forall key info,
    cache !! key = Some info ->
    info_javaVersion info = "8" /\ transitiveDependencies info = Some [].

(** The registry queries among some interactions. *)
Definition registry_queries (evs : list Event) : list Event :=
  List.filter (fun ev => is_registry_call (ev_call ev)) evs.

(** What holds of every suggestion: the version is not empty, differs from
    the current one, and the type is that of the pair. *)
Definition suggestion_ok (u : SuggestedUpdate) : Prop :=
  suggestedVersion u <> "" /\
  suggestedVersion u <> version (sug_dependency u) /\
  updateType u
  = DependencyResolverRest.determineUpdateType (version (sug_dependency u)) (suggestedVersion u).

(** The error [fetchAvailableVersions] throws on a registry answer, if any:
    the request's own, or that of reading the missing body. *)
Definition fetch_failure (answer : AxiosOutcome) : option JS.Thrown :=
  match answer with
  | AxiosRejected e => Some e
  | AxiosResponse None =>
      Some (JS.ErrorObject JS.TypeError "Cannot read properties of undefined")
  | AxiosResponse (Some _) => None
  end.

(** The interactions of resolving one dependency on a registry answer: the
    query, and after a failure the error handed to the logger. *)
Definition resolution_events (dependency : Dependency) (answer : AxiosOutcome) : list Event :=
  mkEvent AxiosOutcome
    (AxiosGet DependencyResolver.mavenCentral (DependencyResolver.solr_query dependency)) answer
  :: match fetch_failure answer with
     | Some e =>
         [notified (LoggerError "Failed to resolve latest version for {0}:{1}"
                      [groupId dependency; artifactId dependency] e)]
     | None => []
     end.

(** The suggestion a registry answer gives for a dependency: the first
    listed version, when there is one, it is not empty and it is not the
    current version; none after a failed query. *)
Definition suggestion_for (dependency : Dependency) (answer : AxiosOutcome)
  : option SuggestedUpdate :=
  match answer with
  | AxiosResponse (Some (latest :: _)) =>
      if bool_decide (latest = "" \/ latest = version dependency) then None
      else Some {| sug_dependency := dependency; suggestedVersion := latest;
                   updateType :=
                     DependencyResolverRest.determineUpdateType (version dependency) latest |}
  | _ => None
  end.



(** The versions the version map holds for a key; none for a missing key. *)
Definition versions_for (key : string) (m : DependencyResolver.VersionMap) : list string :=
  default [] (DependencyResolver.map_get key m).

(** The version map is well grouped: its keys are distinct and each holds a
    non-empty list of distinct versions. *)
Definition well_grouped (m : DependencyResolver.VersionMap) : Prop :=
  NoDup (map fst m) /\
  forall key versions,
    DependencyResolver.map_get key m = Some versions -> NoDup versions /\ versions <> [].

Definition no_colon (s : string) : Prop :=
  forall i, String.get i s <> Some ":"%char.

(* ===================================================================== *)
(** ** services/dependencyResolver.ts (the resolver with [findLatestVersion]) *)
(* ===================================================================== *)

Module DependencyResolverService.

Definition mavenCentralUrl : string := "https://search.maven.org/solr/select".

(** [data.response?.docs?.map(doc => doc.v) || []]: a body without the
    path gives the empty list. Whatever the request throws is thrown again
    as an [Error] that quotes its message. *)
Definition getAvailableVersions (groupId artifactId : string) : Prog (list string) :=
  try_catch
    (response ← call (AxiosGet mavenCentralUrl
                        ("g:" +:+ JS.dquote +:+ groupId +:+ JS.dquote
                         +:+ " AND a:" +:+ JS.dquote +:+ artifactId +:+ JS.dquote));
     match response with
     | AxiosRejected e => Throw e
     | AxiosResponse docs => Ret (default [] docs)
     end)
    (fun error =>
       let errorMessage :=
         match error with
         | JS.ErrorObject _ message => message
         | JS.NonError => "Unknown error"
         end in
       Throw (JS.ErrorObject JS.PlainError ("Failed to fetch versions: " +:+ errorMessage))).

(** [error instanceof Error ? error : new Error('Unknown error')]. *)
Definition as_error (error : JS.Thrown) : JS.Thrown :=
  if JS.instanceof_Error error then error
  else JS.ErrorObject JS.PlainError "Unknown error".

Definition validateDependency (dependency : Dependency) : Prog bool :=
  try_catch
    (versions ← getAvailableVersions (groupId dependency) (artifactId dependency);
     Ret (bool_decide (version dependency ∈ versions)))
    (fun error =>
       _ ← call (LoggerError "Failed to validate dependency" [] (as_error error));
       Ret false).

Definition findLatestVersion (dep : Dependency) : Prog (option string) :=
  try_catch
    (versions ← getAvailableVersions (groupId dep) (artifactId dep);
     Ret (if (0 <? length versions)%nat then versions !! (length versions - 1)%nat else None))
    (fun error =>
       _ ← call (LoggerError "Failed to find latest version" [] (as_error error));
       Ret None).

End DependencyResolverService.

(** What the registry answers this resolver for a dependency, at a world. *)
Definition service_answer (env : Env) (w : World) (dependency : Dependency) : AxiosOutcome :=
  env _ (AxiosGet DependencyResolverService.mavenCentralUrl
           (DependencyResolver.solr_query dependency)) (trace w).

(** The error this resolver makes of a failed request. *)
Definition fetch_error (e : JS.Thrown) : JS.Thrown :=
  JS.ErrorObject JS.PlainError
    ("Failed to fetch versions: "
     +:+ match e with
         | JS.ErrorObject _ message => message
         | JS.NonError => "Unknown error"
         end).



(* ===================================================================== *)
(** ** Properties: runs *)
(* ===================================================================== *)

Section Runs.
Context {R : Type}.

Lemma run_bind {A} (p : Prog A) (f : A -> Prog R) env w :
  run (prog_bind p f) env w =
  match run p env w with
  | (Returned a, w1) => run (f a) env w1
  | (Rejected e, w1) => (Rejected e, w1)
  end.
Proof.
  revert w. induction p as [a | e | X c k IH]; intros w; cbn; try reflexivity.
  destruct (perform c env w) as [x w1]. apply IH.
Qed.

Lemma run_try_catch (p : Prog R) (h : JS.Thrown -> Prog R) env w :
  run (try_catch p h) env w =
  match run p env w with
  | (Returned a, w1) => (Returned a, w1)
  | (Rejected e, w1) => run (h e) env w1
  end.
Proof.
  revert w. induction p as [a | e | X c k IH]; intros w; cbn; try reflexivity.
  destruct (perform c env w) as [x w1]. apply IH.
Qed.

Lemma perform_trace {X} (c : Call X) env w :
  trace (perform c env w).2 = trace w ++ [mkEvent X c (perform c env w).1].
Proof. destruct c; reflexivity. Qed.

Lemma perform_files {X} (c : Call X) env w :
  files (perform c env w).2 = files w.
Proof. destruct c; reflexivity. Qed.

(** A run only appends to the trace. *)
Lemma run_trace (p : Prog R) env w :
  exists evs, trace (run p env w).2 = trace w ++ evs.
Proof.
  revert w. induction p as [a | e | X c k IH]; intros w; cbn.
  - exists []. by rewrite app_nil_r.
  - exists []. by rewrite app_nil_r.
  - pose proof (perform_trace c env w) as Hp.
    destruct (perform c env w) as [x w1]; cbn in Hp.
    destruct (IH x w1) as [evs Hevs].
    exists (mkEvent X c x :: evs). rewrite Hevs, Hp. by rewrite <- app_assoc.
Qed.

Lemma new_events_app (w w' : World) evs :
  trace w' = trace w ++ evs -> new_events w w' = evs.
Proof. unfold new_events. intros ->. apply drop_app_length. Qed.

Lemma new_events_refl (w : World) : new_events w w = [].
Proof. apply new_events_app. by rewrite app_nil_r. Qed.

Lemma new_events_trans (w w1 w2 : World) evs1 evs2 :
  trace w1 = trace w ++ evs1 -> trace w2 = trace w1 ++ evs2 ->
  new_events w w2 = evs1 ++ evs2.
Proof. intros H1 H2. apply new_events_app. rewrite H2, H1. by rewrite app_assoc. Qed.

(** The events of a run that starts with a call. *)
Lemma new_events_vis {X} (c : Call X) (k : X -> Prog R) env w :
  new_events w (run (Vis c k) env w).2 =
  mkEvent X c (perform c env w).1
    :: new_events (perform c env w).2 (run (k (perform c env w).1) env (perform c env w).2).2.
Proof.
  cbn. pose proof (perform_trace c env w) as Hp.
  destruct (perform c env w) as [x w1]; cbn in *.
  destruct (run_trace (k x) env w1) as [evs Hevs].
  rewrite (new_events_app w1 _ evs Hevs).
  apply new_events_app. rewrite Hevs, Hp. by rewrite <- app_assoc.
Qed.
End Runs.

(* ===================================================================== *)
(** ** Properties: JavaScript primitives *)
(* ===================================================================== *)

Example split_version : JS.split "." "1.8.0_202" = ["1"; "8"; "0_202"].
Proof. reflexivity. Qed.

Example split_empty : JS.split "." "" = [""].
Proof. reflexivity. Qed.

Example split_trailing_dot : JS.split "." "17." = ["17"; ""].
Proof. reflexivity. Qed.

Example join_major_minor : JS.join "." (JS.slice0 2 (JS.split "." "2.7.18")) = "2.7".
Proof. reflexivity. Qed.

Example parseInt_plain : JS.parseInt "8" = Some 8.
Proof. reflexivity. Qed.

Example parseInt_prefix : JS.parseInt " -12abc" = Some (-12).
Proof. reflexivity. Qed.

Example parseInt_hex : JS.parseInt "0x1F" = Some 31.
Proof. reflexivity. Qed.

Example parseInt_hex_without_digits : JS.parseInt "0x" = None.
Proof. reflexivity. Qed.

Example parseInt_word : JS.parseInt "detected-version" = None.
Proof. reflexivity. Qed.

Example parseInt_empty : JS.parseInt "" = None.
Proof. reflexivity. Qed.

Lemma is_digit_cases (d : Z) :
  is_digit d ->
  d = 0 \/ d = 1 \/ d = 2 \/ d = 3 \/ d = 4 \/ d = 5 \/ d = 6 \/ d = 7 \/ d = 8 \/ d = 9.
Proof. unfold is_digit. lia. Qed.

Ltac digit_cases H :=
  apply is_digit_cases in H;
  repeat (destruct H as [H | H]); subst.

Lemma digit_value_digit_char (d : Z) : is_digit d -> JS.digit_value (digit_char d) = Some d.
Proof. intros H. digit_cases H; reflexivity. Qed.

Lemma parse_digits_decimal (ds : list Z) (acc : option Z) :
  Forall is_digit ds ->
  JS.parse_digits 10 (digits_string ds) acc =
  match ds with
  | [] => acc
  | _ :: _ => Some (fold_left (fun a d => a * 10 + d) ds (default 0 acc))
  end.
Proof.
  intros Hds. revert acc. induction Hds as [| d ds Hd Hds IH]; intros acc; [reflexivity |].
  cbn [digits_string JS.parse_digits]. rewrite (digit_value_digit_char d Hd).
  assert ((d <? 10) = true) as -> by (unfold is_digit in Hd; lia).
  rewrite IH. destruct ds; reflexivity.
Qed.

Lemma parseInt_decimal (ds : list Z) :
  Forall is_digit ds -> ds <> [] ->
  JS.parseInt (digits_string ds) = Some (digits_value ds).
Proof.
  intros Hds Hne. destruct ds as [| d ds]; [done |].
  inversion Hds as [| ? ? Hd Hds']; subst.
  pose proof (parse_digits_decimal (d :: ds) None Hds) as Hp.
  unfold digits_value. cbn [default] in Hp.
  assert (JS.parseInt (digits_string (d :: ds))
          = match JS.parse_digits 10 (digits_string (d :: ds)) None with
            | Some n => Some (1 * n)
            | None => None
            end) as ->.
  { digit_cases Hd; try reflexivity.
    destruct ds as [| d' ds]; [reflexivity |].
    inversion Hds' as [| ? ? Hd' ?]; subst. digit_cases Hd'; reflexivity. }
  rewrite Hp. f_equal. lia.
Qed.

Lemma first_split_no_sep (sep : ascii) (s : string) :
  (forall i, String.get i s <> Some sep) ->
  JS.first (JS.split sep s) = s /\
  forall rest, JS.first (JS.split sep (s +:+ String sep rest)) = s.
Proof.
  induction s as [| c s IH]; intros Hs.
  - split; [reflexivity |]. intros rest.
    change (EmptyString +:+ String sep rest) with (String sep rest).
    cbn [JS.split]. by rewrite Ascii.eqb_refl.
  - assert (Ascii.eqb c sep = false) as Hc.
    { apply Ascii.eqb_neq. intros ->. by apply (Hs 0%nat). }
    destruct IH as [IH1 IH2]. { intros i. apply (Hs (S i)). }
    split.
    + cbn [JS.split]. rewrite Hc. destruct (JS.split sep s); cbn in *; by subst.
    + intros rest. specialize (IH2 rest).
      change (String c s +:+ String sep rest) with (String c (s +:+ String sep rest)).
      cbn [JS.split]. rewrite Hc.
      destruct (JS.split sep (s +:+ String sep rest)); cbn in *; by subst.
Qed.

Lemma digits_string_no_dot (ds : list Z) : Forall is_digit ds -> no_dot (digits_string ds).
Proof.
  induction 1 as [| d ds Hd Hds IH]; intros i; [by destruct i |].
  destruct i as [| i]; [| apply IH].
  cbn. digit_cases Hd; discriminate.
Qed.

(* ===================================================================== *)
(** ** Properties: the upgrade plan generator *)
(* ===================================================================== *)

Section PlanGenerator.
Import UpgradePlanGenerator.

Lemma determineTargetJavaVersion_resolves (currentVersion : string) :
  exists target, determineTargetJavaVersion currentVersion = Ret target.
Proof.
  unfold determineTargetJavaVersion. repeat case_match; eauto.
Qed.

Lemma determineSpringBootVersion_resolves (currentVersion : option string) :
  exists target, determineSpringBootVersion currentVersion = Ret target.
Proof.
  unfold determineSpringBootVersion. repeat case_match; eauto.
Qed.

(** The stub [findLatestVersion] answers [null] for every dependency, so the
    loop never pushes. *)
Lemma determineDependencyUpdates_loop_keeps (updates : list DependencyUpdate)
    (dependencies : list Dependency) :
  determineDependencyUpdates_loop updates dependencies = Ret updates.
Proof.
  revert updates. induction dependencies as [| dep rest IH]; intros updates.
  - reflexivity.
  - cbn. apply IH.
Qed.

Lemma determineDependencyUpdates_empty (dependencies : list Dependency) :
  determineDependencyUpdates dependencies = Ret [].
Proof. apply determineDependencyUpdates_loop_keeps. Qed.

Lemma determineOpenRewriteRecipes_value (projectInfo : ProjectInfo) :
  determineOpenRewriteRecipes projectInfo = Ret (recipes_of projectInfo).
Proof.
  unfold determineOpenRewriteRecipes, recipes_of.
  destruct (JS.truthy_opt (springBootVersion projectInfo)); reflexivity.
Qed.

(** [generatePlan] resolves for every project, with this plan. *)
Lemma generatePlan_value (projectInfo : ProjectInfo) :
  exists jv sb,
    determineTargetJavaVersion (currentJavaVersion projectInfo) = Ret jv /\
    determineSpringBootVersion (springBootVersion projectInfo) = Ret sb /\
    generatePlan projectInfo =
    Ret {| javaVersion := jv; plan_springBootVersion := sb;
           recipes := recipes_of projectInfo; dependencyUpdates := [] |}.
Proof.
  destruct (determineTargetJavaVersion_resolves (currentJavaVersion projectInfo)) as [jv Hjv].
  destruct (determineSpringBootVersion_resolves (springBootVersion projectInfo)) as [sb Hsb].
  exists jv, sb. repeat split; try assumption.
  unfold generatePlan. rewrite Hjv, Hsb, determineOpenRewriteRecipes_value,
    determineDependencyUpdates_empty. reflexivity.
Qed.

(** C1. The target-Java-version function resolves for every input, without
    any call and without rejecting; and when the first dot-separated segment
    of the current version parses (by [parseInt]) to a major version, the
    target is "11" below 11, "17" in [11,17), "21" in [17,21), and the input
    string itself from 21 on. *)
Theorem determineTargetJavaVersion_lts_rungs (currentVersion : string) :
  (exists target, determineTargetJavaVersion currentVersion = Ret target) /\
  forall major : Z,
    major_of currentVersion = Some major ->
    (major < 11 -> determineTargetJavaVersion currentVersion = Ret "11") /\
    (11 <= major < 17 -> determineTargetJavaVersion currentVersion = Ret "17") /\
    (17 <= major < 21 -> determineTargetJavaVersion currentVersion = Ret "21") /\
    (21 <= major -> determineTargetJavaVersion currentVersion = Ret currentVersion).
Proof.
  split; [apply determineTargetJavaVersion_resolves |].
  unfold major_of, determineTargetJavaVersion. intros major ->. cbn [JS.lt].
  repeat split; intros; repeat case_match; try reflexivity; lia.
Qed.

Lemma determineTargetJavaVersion_lts_rungs_witness :
  determineTargetJavaVersion "1.8.0_202" = Ret "11" /\
  determineTargetJavaVersion "11.0.2" = Ret "17" /\
  determineTargetJavaVersion "17" = Ret "21" /\
  determineTargetJavaVersion "21.0.1" = Ret "21.0.1".
Proof.
  split; [| split; [| split]].
  - apply (proj2 (determineTargetJavaVersion_lts_rungs "1.8.0_202") 1 eq_refl). lia.
  - apply (proj2 (determineTargetJavaVersion_lts_rungs "11.0.2") 11 eq_refl). lia.
  - apply (proj2 (determineTargetJavaVersion_lts_rungs "17") 17 eq_refl). lia.
  - apply (proj2 (determineTargetJavaVersion_lts_rungs "21.0.1") 21 eq_refl). lia.
Defined.

(** For a version written as a decimal numeral, alone or followed by a dot
    and anything, the major version of C1 is the value of that numeral. *)
Lemma major_of_decimal (ds : list Z) (rest : string) :
  Forall is_digit ds -> ds <> [] ->
  major_of (digits_string ds) = Some (digits_value ds) /\
  major_of (digits_string ds +:+ String "."%char rest) = Some (digits_value ds).
Proof.
  intros Hds Hne. unfold major_of.
  destruct (first_split_no_sep "."%char (digits_string ds)) as [H1 H2].
  { apply digits_string_no_dot, Hds. }
  rewrite H1, H2. split; by apply parseInt_decimal.
Qed.

(** C9. When [parseInt] of the first dot-separated segment is NaN, the
    target-Java-version function resolves with the input string unchanged,
    and [generatePlan] resolves with a plan whose Java version is that
    string. *)
Theorem determineTargetJavaVersion_nan_unchanged (projectInfo : ProjectInfo) :
  major_of (currentJavaVersion projectInfo) = None ->
  determineTargetJavaVersion (currentJavaVersion projectInfo)
  = Ret (currentJavaVersion projectInfo) /\
  exists plan, generatePlan projectInfo = Ret plan /\
               javaVersion plan = currentJavaVersion projectInfo.
Proof.
  intros Hnan.
  assert (determineTargetJavaVersion (currentJavaVersion projectInfo)
          = Ret (currentJavaVersion projectInfo)) as Htarget.
  { unfold determineTargetJavaVersion. unfold major_of in Hnan. by rewrite Hnan. }
  split; [exact Htarget |].
  destruct (generatePlan_value projectInfo) as (jv & sb & Hjv & _ & Hplan).
  rewrite Htarget in Hjv. injection Hjv as <-.
  eexists. split; [exact Hplan | reflexivity].
Qed.

Lemma determineTargetJavaVersion_nan_unchanged_witness :
  determineTargetJavaVersion "detected-version" = Ret "detected-version" /\
  exists plan,
    generatePlan {| buildSystem := maven; currentJavaVersion := "detected-version";
                    dependencies := []; springBootVersion := None |} = Ret plan /\
    javaVersion plan = "detected-version".
Proof.
  apply (determineTargetJavaVersion_nan_unchanged
           {| buildSystem := maven; currentJavaVersion := "detected-version";
              dependencies := []; springBootVersion := None |}).
  reflexivity.
Defined.

(** C3. For every project, [generatePlan] resolves with a plan whose
    dependency updates hold no two entries with the same (groupId,
    artifactId). (The list is in fact empty: [findLatestVersion] is a stub
    that answers [null].) *)
Theorem generatePlan_dependencyUpdates_distinct (projectInfo : ProjectInfo) :
  exists plan,
    generatePlan projectInfo = Ret plan /\
    NoDup (map (fun u => (upd_groupId u, upd_artifactId u)) (dependencyUpdates plan)).
Proof.
  destruct (generatePlan_value projectInfo) as (jv & sb & _ & _ & Hplan).
  eexists. split; [exact Hplan |]. cbn. constructor.
Qed.

Lemma generatePlan_dependencyUpdates_empty (projectInfo : ProjectInfo) :
  exists plan, generatePlan projectInfo = Ret plan /\ dependencyUpdates plan = [].
Proof.
  destruct (generatePlan_value projectInfo) as (jv & sb & _ & _ & Hplan).
  eexists. split; [exact Hplan | reflexivity].
Qed.

(** The parts of the recipe selection that hold for every project: the two
    modernization recipes are always there, and the Spring Boot recipe is
    there exactly when the project carries a non-empty framework version. *)
Lemma recipes_of_modernization (projectInfo : ProjectInfo) :
  "org.openrewrite.java.migrate.JavaModernizer" ∈ recipes_of projectInfo /\
  "org.openrewrite.java.migrate.UpgradeJavaVersion" ∈ recipes_of projectInfo.
Proof.
  unfold recipes_of. destruct (JS.truthy_opt _); cbn; split; set_solver.
Qed.

Lemma recipes_of_spring_boot (projectInfo : ProjectInfo) :
  "org.openrewrite.java.spring.boot3.UpgradeSpringBoot_3_2" ∈ recipes_of projectInfo
  <-> exists v, springBootVersion projectInfo = Some v /\ v <> "".
Proof.
  unfold recipes_of. destruct (springBootVersion projectInfo) as [[| c v] |]; cbn.
  - split.
    + intros H. repeat (apply elem_of_cons in H as [H | H]; [discriminate |]).
      by apply elem_of_nil in H.
    + intros (v & Hv & Hne). congruence.
  - split; [| intros _; right; left].
    intros _. exists (String c v). split; [done | discriminate].
  - split.
    + intros H. repeat (apply elem_of_cons in H as [H | H]; [discriminate |]).
      by apply elem_of_nil in H.
    + intros (v & Hv & _). discriminate.
Qed.

(** C6. On the project {maven, "8", no dependency, no framework version}
    [generatePlan] resolves with target Java version "11", no dependency
    update, and the two modernization recipes; its first recipe, meant to be
    the Java upgrade recipe, is built from the promise of the target version
    and not from the version: it reads [UpgradeToJava[object Promise]], and the
    recipe for the target "11" is not in the list. *)
Theorem generatePlan_java8_plan :
  exists plan,
    generatePlan {| buildSystem := maven; currentJavaVersion := "8";
                    dependencies := []; springBootVersion := None |} = Ret plan /\
    javaVersion plan = "11" /\
    dependencyUpdates plan = [] /\
    recipes plan = ["org.openrewrite.java.migrate.UpgradeToJava[object Promise]";
                    "org.openrewrite.java.migrate.JavaModernizer";
                    "org.openrewrite.java.migrate.UpgradeJavaVersion"] /\
    "org.openrewrite.java.migrate.UpgradeToJava11" ∉ recipes plan.
Proof.
  eexists. split; [reflexivity |]. cbn. repeat split.
  intros H. repeat (apply elem_of_cons in H as [H | H]; [discriminate |]).
  by apply elem_of_nil in H.
Qed.

End PlanGenerator.

(* ===================================================================== *)
(** ** Properties: the transformation runner *)
(* ===================================================================== *)

Section TransformationRunner.
Import OpenRewriteService.

Lemma run_applyRecipes_nil env w : run (applyRecipes []) env w = (Returned tt, w).
Proof. reflexivity. Qed.

(** One turn of the loop: the process fails and the error is rethrown with
    the recipe named, or the loop goes on. *)
Lemma run_applyRecipes_cons (recipe : string) (rest : list string) env w :
  run (applyRecipes (recipe :: rest)) env w =
  match perform (ChildExec (recipe_command recipe)) env w with
  | (Some message, w1) =>
      (Rejected (JS.ErrorObject JS.PlainError
                   ("Failed to apply recipe " +:+ recipe +:+ ": " +:+ message)), w1)
  | (None, w1) => run (applyRecipes rest) env w1
  end.
Proof.
  cbn. destruct (env (option string) (ChildExec (recipe_command recipe)) (trace w));
    reflexivity.
Qed.

Lemma applyRecipes_failure_rethrown (recipes : list string) env w (command message : string) :
  existsb (is_exec_failure command message)
          (new_events w (run (applyRecipes recipes) env w).2) = true ->
  exists recipe,
    recipe ∈ recipes /\ command = recipe_command recipe /\
    (run (applyRecipes recipes) env w).1 =
    Rejected (JS.ErrorObject JS.PlainError
                ("Failed to apply recipe " +:+ recipe +:+ ": " +:+ message)).
Proof.
  revert w. induction recipes as [| recipe rest IH]; intros w.
  - rewrite run_applyRecipes_nil. cbn [snd]. rewrite new_events_refl. discriminate.
  - rewrite run_applyRecipes_cons.
    pose proof (perform_trace (ChildExec (recipe_command recipe)) env w) as Hp.
    destruct (perform (ChildExec (recipe_command recipe)) env w) as [[m |] w1];
      cbn [fst snd] in *.
    + rewrite (new_events_app w w1 _ Hp). cbn. rewrite orb_false_r.
      intros [Hc Hm]%andb_prop.
      apply bool_decide_eq_true in Hc. apply bool_decide_eq_true in Hm.
      injection Hm as ->. exists recipe. repeat split; [left | done].
    + destruct (run_trace (applyRecipes rest) env w1) as [evs Hevs].
      rewrite (new_events_trans w w1 _ _ _ Hp Hevs). cbn [app existsb].
      assert (is_exec_failure command message
                (mkEvent (option string) (ChildExec (recipe_command recipe)) None) = false)
        as ->.
      { cbn. apply andb_false_r. }
      cbn [orb]. rewrite <- (new_events_app w1 _ evs Hevs).
      intros H. destruct (IH w1 H) as (r & Hr & Hc & Hout).
      exists r. repeat split; [by right | done | done].
Qed.

End TransformationRunner.

(* ===================================================================== *)
(** ** Properties: the dependency resolver *)
(* ===================================================================== *)

Section Resolver.
Import DependencyResolver.

(** The resolver's outcome is decided by the registry's answer. *)
Lemma run_resolveLatestVersion (dependency : Dependency) (constraints : VersionConstraints)
    env w :
  (run (resolveLatestVersion dependency constraints) env w).1 =
  match registry_answer env w dependency with
  | AxiosResponse (Some versions) => Returned (findBestVersion versions constraints)
  | AxiosResponse None => Returned None
  | AxiosRejected _ => Returned None
  end.
Proof.
  unfold registry_answer. cbn.
  destruct (env AxiosOutcome (AxiosGet mavenCentral (solr_query dependency)) (trace w))
    as [e | [versions |]]; reflexivity.
Qed.

Lemma new_events_resolveLatestVersion_rejected (dependency : Dependency)
    (constraints : VersionConstraints) env w (e : JS.Thrown) :
  registry_answer env w dependency = AxiosRejected e ->
  existsb (is_logged_error e)
          (new_events w (run (resolveLatestVersion dependency constraints) env w).2) = true.
Proof.
  unfold registry_answer. intros He.
  unfold resolveLatestVersion, fetchAvailableVersions.
  cbn [mbind prog_mbind prog_bind call try_catch].
  rewrite new_events_vis. cbn [perform fst snd]. rewrite He.
  cbn [prog_bind try_catch]. rewrite new_events_vis. cbn [existsb].
  apply orb_true_iff. right. apply orb_true_iff. left.
  cbn. by apply bool_decide_eq_true.
Qed.

(** C7 (amended). [resolveLatestVersion] resolves with the first element of
    the version list the registry returned when that element is a non-empty
    string; with none when the list is empty or starts with the empty string
    ([versions[0] || null]); and with none, without rejecting, when the
    registry query fails or its body lacks the version list. *)
Theorem resolveLatestVersion_first_or_none (dependency : Dependency)
    (constraints : VersionConstraints) (env : Env) (w : World) :
  let outcome := (run (resolveLatestVersion dependency constraints) env w).1 in
  (forall v rest, registry_answer env w dependency = AxiosResponse (Some (v :: rest)) ->
                  v <> "" -> outcome = Returned (Some v)) /\
  (forall rest, registry_answer env w dependency = AxiosResponse (Some ("" :: rest)) ->
                outcome = Returned None) /\
  (registry_answer env w dependency = AxiosResponse (Some []) -> outcome = Returned None) /\
  (forall e, registry_answer env w dependency = AxiosRejected e -> outcome = Returned None) /\
  (registry_answer env w dependency = AxiosResponse None -> outcome = Returned None).
Proof.
  cbn zeta. rewrite run_resolveLatestVersion.
  split; [| split; [| split; [| split]]].
  - intros v rest -> Hv. destruct v; [done | reflexivity].
  - by intros rest ->.
  - by intros ->.
  - by intros e ->.
  - by intros ->.
Qed.

Lemma resolveLatestVersion_first_or_none_witness :
  let dependency := {| groupId := "org.slf4j"; artifactId := "slf4j-api"; version := "1.7.36" |} in
  let constraints := {| constraint_javaVersion := Some "17"; minVersion := None;
                        maxVersion := None; excludeVersions := None |} in
  (run (resolveLatestVersion dependency constraints)
       (registry_env (AxiosResponse (Some ["2.0.9"; "1.7.36"]))) (world_with [])).1
  = Returned (Some "2.0.9") /\
  (run (resolveLatestVersion dependency constraints)
       (registry_env (AxiosResponse (Some [""; "1.7.36"]))) (world_with [])).1
  = Returned None /\
  (run (resolveLatestVersion dependency constraints)
       (registry_env (AxiosResponse (Some []))) (world_with [])).1
  = Returned None /\
  (run (resolveLatestVersion dependency constraints)
       (registry_env (AxiosRejected (JS.ErrorObject JS.AxiosError "Network Error")))
       (world_with [])).1
  = Returned None /\
  (run (resolveLatestVersion dependency constraints)
       (registry_env (AxiosResponse None)) (world_with [])).1
  = Returned None.
Proof.
  intros dependency constraints.
  split; [| split; [| split; [| split]]].
  - apply (proj1 (resolveLatestVersion_first_or_none dependency constraints
                    (registry_env (AxiosResponse (Some ["2.0.9"; "1.7.36"]))) (world_with []))
             "2.0.9" ["1.7.36"]); [reflexivity | discriminate].
  - apply (proj1 (proj2 (resolveLatestVersion_first_or_none dependency constraints
                    (registry_env (AxiosResponse (Some [""; "1.7.36"]))) (world_with [])))
             ["1.7.36"]); reflexivity.
  - apply (proj1 (proj2 (proj2 (resolveLatestVersion_first_or_none dependency constraints
                    (registry_env (AxiosResponse (Some []))) (world_with []))))); reflexivity.
  - apply (proj1 (proj2 (proj2 (proj2 (resolveLatestVersion_first_or_none dependency constraints
                    (registry_env (AxiosRejected (JS.ErrorObject JS.AxiosError "Network Error")))
                    (world_with [])))))
             (JS.ErrorObject JS.AxiosError "Network Error")); reflexivity.
  - apply (proj2 (proj2 (proj2 (proj2 (resolveLatestVersion_first_or_none dependency constraints
                    (registry_env (AxiosResponse None)) (world_with [])))))); reflexivity.
Defined.

(** C7 as stated fails: a version list that starts with the empty string
    resolves to none, not to its first element. *)
Lemma resolveLatestVersion_first_element_counterexample :
  ~ (forall dependency constraints env w v rest,
       registry_answer env w dependency = AxiosResponse (Some (v :: rest)) ->
       (run (resolveLatestVersion dependency constraints) env w).1 = Returned (Some v)).
Proof.
  intros H.
  specialize (H {| groupId := "org.slf4j"; artifactId := "slf4j-api"; version := "1.7.36" |}
                {| constraint_javaVersion := Some "17"; minVersion := None;
                   maxVersion := None; excludeVersions := None |}
                (registry_env (AxiosResponse (Some [""; "1.7.36"]))) (world_with [])
                "" ["1.7.36"] eq_refl).
  discriminate H.
Qed.

(** C4 as stated fails for the resolver: when the registry query fails,
    [resolveLatestVersion] does not reject at all. *)
Lemma resolveLatestVersion_rethrow_counterexample :
  ~ (forall dependency constraints env w e,
       registry_answer env w dependency = AxiosRejected e ->
       exists e', (run (resolveLatestVersion dependency constraints) env w).1 = Rejected e').
Proof.
  intros H.
  destruct (H {| groupId := "org.slf4j"; artifactId := "slf4j-api"; version := "1.7.36" |}
              {| constraint_javaVersion := Some "17"; minVersion := None;
                 maxVersion := None; excludeVersions := None |}
              (registry_env (AxiosRejected (JS.ErrorObject JS.AxiosError "Network Error")))
              (world_with [])
              (JS.ErrorObject JS.AxiosError "Network Error") eq_refl) as [e' He'].
  discriminate He'.
Qed.

(** C4 (amended). When an external process started by [applyRecipes] fails,
    [applyRecipes] rejects with an [Error] that names the recipe and carries
    the process error's message; when the registry query fails,
    [resolveLatestVersion] hands the error to the logger and resolves with
    none. *)
Theorem failure_handling_of_services :
  (forall (recipes : list string) env w (command message : string),
      existsb (is_exec_failure command message)
              (new_events w (run (OpenRewriteService.applyRecipes recipes) env w).2) = true ->
      exists recipe,
        recipe ∈ recipes /\ command = OpenRewriteService.recipe_command recipe /\
        (run (OpenRewriteService.applyRecipes recipes) env w).1 =
        Rejected (JS.ErrorObject JS.PlainError
                    ("Failed to apply recipe " +:+ recipe +:+ ": " +:+ message))) /\
  (forall dependency constraints env w (e : JS.Thrown),
      registry_answer env w dependency = AxiosRejected e ->
      (run (resolveLatestVersion dependency constraints) env w).1 = Returned None /\
      existsb (is_logged_error e)
              (new_events w (run (resolveLatestVersion dependency constraints) env w).2) = true).
Proof.
  split.
  - apply applyRecipes_failure_rethrown.
  - intros dependency constraints env w e He. split.
    + rewrite run_resolveLatestVersion. by rewrite He.
    + by apply new_events_resolveLatestVersion_rejected.
Qed.

Lemma failure_handling_of_services_witness :
  (exists recipe,
      recipe ∈ ["org.openrewrite.java.migrate.JavaModernizer"] /\
      OpenRewriteService.recipe_command "org.openrewrite.java.migrate.JavaModernizer"
      = OpenRewriteService.recipe_command recipe /\
      (run (OpenRewriteService.applyRecipes ["org.openrewrite.java.migrate.JavaModernizer"])
           (failing_exec_env "Command failed: ./mvnw") (world_with ["pom.xml"])).1 =
      Rejected (JS.ErrorObject JS.PlainError
                  ("Failed to apply recipe " +:+ recipe +:+ ": " +:+ "Command failed: ./mvnw"))) /\
  ((run (resolveLatestVersion
           {| groupId := "org.slf4j"; artifactId := "slf4j-api"; version := "1.7.36" |}
           {| constraint_javaVersion := Some "17"; minVersion := None;
              maxVersion := None; excludeVersions := None |})
        (registry_env (AxiosRejected (JS.ErrorObject JS.AxiosError "Network Error")))
        (world_with [])).1 = Returned None /\
   existsb (is_logged_error (JS.ErrorObject JS.AxiosError "Network Error"))
     (new_events (world_with [])
        (run (resolveLatestVersion
                {| groupId := "org.slf4j"; artifactId := "slf4j-api"; version := "1.7.36" |}
                {| constraint_javaVersion := Some "17"; minVersion := None;
                   maxVersion := None; excludeVersions := None |})
             (registry_env (AxiosRejected (JS.ErrorObject JS.AxiosError "Network Error")))
             (world_with [])).2) = true).
Proof.
  split.
  - apply (proj1 failure_handling_of_services
             ["org.openrewrite.java.migrate.JavaModernizer"]
             (failing_exec_env "Command failed: ./mvnw") (world_with ["pom.xml"])
             (OpenRewriteService.recipe_command "org.openrewrite.java.migrate.JavaModernizer")
             "Command failed: ./mvnw").
    vm_compute. reflexivity.
  - apply (proj2 failure_handling_of_services
             {| groupId := "org.slf4j"; artifactId := "slf4j-api"; version := "1.7.36" |}
             {| constraint_javaVersion := Some "17"; minVersion := None;
                maxVersion := None; excludeVersions := None |}
             (registry_env (AxiosRejected (JS.ErrorObject JS.AxiosError "Network Error")))
             (world_with [])
             (JS.ErrorObject JS.AxiosError "Network Error")).
    reflexivity.
Defined.

(** Whatever the dependencies, [checkConflicts] rejects with a TypeError or
    resolves with no conflict, by the way the loop over
    [versionMap.entries] runs. *)
Lemma checkConflicts_reports_nothing (mode : ForOf) (dependencies : list Dependency) :
  checkConflicts mode dependencies
  = Throw (JS.ErrorObject JS.TypeError "versionMap.entries is not iterable")
  \/ checkConflicts mode dependencies = Ret [].
Proof. destruct mode; [left | right]; reflexivity. Qed.

Lemma set_add_nil (v : string) : set_add v [] = [v].
Proof. reflexivity. Qed.

Lemma set_add_fresh (v1 v2 : string) : v1 <> v2 -> set_add v2 [v1] = [v1; v2].
Proof.
  intros Hne. unfold set_add. rewrite bool_decide_eq_false_2; [reflexivity |].
  intros H. apply list_elem_of_singleton in H. congruence.
Qed.

(** The loop body folded over the entries of the version map does report
    two versions of one coordinate as one conflict with both versions. *)
Lemma find_conflicts_on_map_entries (g a v1 v2 : string) :
  v1 <> v2 ->
  exists conflict,
    find_conflicts []
      (build_version_map [] [ {| groupId := g; artifactId := a; version := v1 |};
                              {| groupId := g; artifactId := a; version := v2 |} ])
    = [conflict] /\
    conflict_versions conflict = [v1; v2].
Proof.
  intros Hne.
  cbn [build_version_map map_get map_set default groupId artifactId version].
  rewrite set_add_nil. cbn [map_get map_set].
  rewrite !bool_decide_eq_true_2 by done. cbn [default from_option id].
  rewrite set_add_fresh by done.
  eexists. split; reflexivity.
Qed.

(** C2. On a list with two versions of one coordinate, [checkConflicts]
    reports no conflict entry: its second loop iterates the method
    [versionMap.entries] instead of the entries it returns, so it rejects
    with a TypeError (or, lowered to an index loop, resolves with the empty
    list), while the version map it built holds the conflict. *)
Theorem checkConflicts_two_versions :
  let dependencies :=
    [ {| groupId := "org.slf4j"; artifactId := "slf4j-api"; version := "1.7.36" |};
      {| groupId := "org.slf4j"; artifactId := "slf4j-api"; version := "2.0.9" |} ] in
  checkConflicts IterationProtocol dependencies
  = Throw (JS.ErrorObject JS.TypeError "versionMap.entries is not iterable") /\
  checkConflicts IndexLoop dependencies = Ret [] /\
  find_conflicts [] (build_version_map [] dependencies)
  = [ {| conflict_groupId := "org.slf4j"; conflict_artifactId := "slf4j-api";
         conflict_versions := ["1.7.36"; "2.0.9"] |} ].
Proof. cbn zeta. split; [| split]; reflexivity. Qed.

End Resolver.

(* ===================================================================== *)
(** ** Properties: which calls a program makes *)
(* ===================================================================== *)

Section AllCalls.
Context (P : forall X, Call X -> Prop).

Lemma all_calls_bind {A B} (p : Prog A) (f : A -> Prog B) :
  all_calls P p -> (forall a, all_calls P (f a)) -> all_calls P (prog_bind p f).
Proof.
  intros Hp Hf. induction Hp as [a | e | X c k Hc Hk IH]; cbn.
  - apply Hf.
  - constructor.
  - constructor; [exact Hc | exact IH].
Qed.

Lemma all_calls_try_catch {R} (p : Prog R) (h : JS.Thrown -> Prog R) :
  all_calls P p -> (forall e, all_calls P (h e)) -> all_calls P (try_catch p h).
Proof.
  intros Hp Hh. induction Hp as [a | e | X c k Hc Hk IH]; cbn.
  - constructor.
  - apply Hh.
  - constructor; [exact Hc | exact IH].
Qed.

Lemma all_calls_call {X} (c : Call X) : P X c -> all_calls P (call c).
Proof. intros Hc. constructor; [exact Hc | intros x; constructor]. Qed.

(** The events of a run are calls of the program. *)
Lemma all_calls_events {R} (p : Prog R) env w :
  all_calls P p ->
  Forall (fun ev => P (ev_type ev) (ev_call ev)) (new_events w (run p env w).2).
Proof.
  intros Hp. revert w. induction Hp as [a | e | X c k Hc Hk IH]; intros w.
  - cbn. rewrite new_events_refl. constructor.
  - cbn. rewrite new_events_refl. constructor.
  - rewrite new_events_vis. constructor; [exact Hc | apply IH].
Qed.
End AllCalls.

(** A program that never writes to the store leaves it as it was. *)
Lemma run_store_frame {R} (p : Prog R) env w :
  all_calls (fun X c => is_store_write_call c = false) p ->
  globalState (run p env w).2 = globalState w.
Proof.
  intros Hp. revert w. induction Hp as [a | e | X c k Hc Hk IH]; intros w; cbn.
  - reflexivity.
  - reflexivity.
  - assert (globalState (perform c env w).2 = globalState w) as Hg.
    { destruct c; try reflexivity. discriminate Hc. }
    destruct (perform c env w) as [x w1]. cbn in Hg. rewrite IH. exact Hg.
Qed.

Lemma run_files_frame {R} (p : Prog R) env w : files (run p env w).2 = files w.
Proof.
  revert w. induction p as [a | e | X c k IH]; intros w; cbn; try reflexivity.
  pose proof (perform_files c env w) as Hf.
  destruct (perform c env w) as [x w1]. cbn in Hf. rewrite IH. exact Hf.
Qed.

Lemma run_try_catch_bind {A R} (p : Prog A) (f : A -> Prog R) (h : JS.Thrown -> Prog R) env w :
  run (try_catch (prog_bind p f) h) env w =
  match run p env w with
  | (Returned a, w1) => run (try_catch (f a) h) env w1
  | (Rejected e, w1) => run (h e) env w1
  end.
Proof.
  revert w. induction p as [a | e | X c k IH]; intros w; cbn; try reflexivity.
  destruct (perform c env w) as [x w1]. apply IH.
Qed.

(* ===================================================================== *)
(** ** Properties: the project analyzer *)
(* ===================================================================== *)

Section Analyzer.
Import ProjectAnalyzer.

Lemma run_detectBuildSystem env w :
  (run detectBuildSystem env w).1 =
  if bool_decide ("pom.xml" ∈ files w) then Returned maven
  else if bool_decide ("build.gradle" ∈ files w) || bool_decide ("build.gradle.kts" ∈ files w)
       then Returned gradle
       else Rejected (JS.ErrorObject JS.PlainError "No supported build system detected").
Proof.
  cbn.
  destruct (bool_decide ("pom.xml" ∈ files w)),
           (bool_decide ("build.gradle" ∈ files w)); cbn;
    try destruct (bool_decide ("build.gradle.kts" ∈ files w)); reflexivity.
Qed.

Lemma run_analyzeProject env w :
  (run analyzeProject env w).1 =
  match (run detectBuildSystem env w).1 with
  | Returned bs =>
      Returned {| buildSystem := bs; currentJavaVersion := "detected-version";
                  dependencies := []; springBootVersion := None |}
  | Rejected e => Rejected e
  end.
Proof.
  unfold analyzeProject, mbind, prog_mbind. rewrite run_bind.
  pose proof (run_detectBuildSystem env w) as H1.
  pose proof (run_files_frame detectBuildSystem env w) as Hf.
  destruct (run detectBuildSystem env w) as [[bs | e] w1]; cbn [fst snd] in *;
    [| reflexivity].
  cbn [detectJavaVersion prog_bind]. rewrite run_bind.
  unfold analyzeDependencies, mbind, prog_mbind. rewrite run_bind.
  pose proof (run_detectBuildSystem env w1) as H2. rewrite Hf, <- H1 in H2.
  destruct (run detectBuildSystem env w1) as [[bs2 | e2] w2]; cbn [fst snd] in *;
    [| discriminate H2].
  injection H2 as ->. destruct bs; reflexivity.
Qed.

(** With none of the relative names [pom.xml], [build.gradle] and
    [build.gradle.kts] present, [analyzeProject] rejects with the error "No
    supported build system detected" and so yields no ProjectInfo; with
    [pom.xml] present it resolves with a ProjectInfo whose build system is
    maven, whether or not a Gradle manifest is present too. *)
Lemma analyzeProject_build_system (env : Env) (w : World) :
  ("pom.xml" ∉ files w -> "build.gradle" ∉ files w -> "build.gradle.kts" ∉ files w ->
   (run analyzeProject env w).1 = Rejected BuildSystemNotFound) /\
  ("pom.xml" ∈ files w ->
   exists projectInfo,
     (run analyzeProject env w).1 = Returned projectInfo /\
     buildSystem projectInfo = maven).
Proof.
  rewrite run_analyzeProject, run_detectBuildSystem. split.
  - intros H1 H2 H3. by rewrite !bool_decide_eq_false_2.
  - intros H1. rewrite bool_decide_eq_true_2 by done.
    eexists. split; reflexivity.
Qed.

Lemma analyzeProject_build_system_witness :
  (run analyzeProject quiet_env (world_with ["README.md"])).1 = Rejected BuildSystemNotFound /\
  exists projectInfo,
    (run analyzeProject quiet_env (world_with ["build.gradle"; "pom.xml"])).1
    = Returned projectInfo /\
    buildSystem projectInfo = maven.
Proof.
  split.
  - apply (proj1 (analyzeProject_build_system quiet_env (world_with ["README.md"])));
      vm_compute; intros H; discriminate H.
  - apply (proj2 (analyzeProject_build_system quiet_env
                    (world_with ["build.gradle"; "pom.xml"]))).
    vm_compute. reflexivity.
Defined.

Lemma strip_prefix_spec (pre s rest : string) :
  strip_prefix pre s = Some rest <-> s = pre +:+ rest.
Proof.
  revert s. induction pre as [| a pre IH]; intros s; cbn.
  - split; [by intros [= ->] | by intros ->].
  - destruct s as [| b s]; [split; discriminate |].
    case_bool_decide as Hab.
    + subst b. rewrite IH. split; [by intros -> | by intros [= ->]].
    + split; [discriminate | intros [= Hb _]; by destruct Hab].
Qed.

(** A relative name is seen exactly when the path it names below the working
    directory is present. *)
Lemma elem_of_files_seen (host : Host) (name : string) :
  name ∈ files_seen host <-> path_under (cwd host) name ∈ paths host.
Proof.
  unfold files_seen, path_under. rewrite elem_of_list_to_set, list_elem_of_omap. split.
  - intros (p & Hp & Hs). apply strip_prefix_spec in Hs. subst p. by apply elem_of_elements.
  - intros Hp. eexists. split; [by apply elem_of_elements |]. by apply strip_prefix_spec.
Qed.

(** C5. [analyzeProject] looks for the manifests below the working directory
    of the extension host, not in the workspace root. With [pom.xml] in the
    workspace root and the host started elsewhere it rejects with "No
    supported build system detected"; with no manifest in the workspace root
    and the host started in a Maven project it reports maven. *)
Theorem analyzeProject_misses_workspace_root :
  (path_under (workspaceRoot project_elsewhere) "pom.xml" ∈ paths project_elsewhere /\
   forall env,
     (run analyzeProject env (host_world project_elsewhere)).1 = Rejected BuildSystemNotFound) /\
  (Forall (fun manifest =>
             path_under (workspaceRoot manifest_elsewhere) manifest ∉ paths manifest_elsewhere)
          ["pom.xml"; "build.gradle"; "build.gradle.kts"] /\
   forall env,
     exists projectInfo,
       (run analyzeProject env (host_world manifest_elsewhere)).1 = Returned projectInfo /\
       buildSystem projectInfo = maven).
Proof.
  split; split.
  - vm_compute. reflexivity.
  - intros env. apply (proj1 (analyzeProject_build_system env (host_world project_elsewhere)));
      cbn [host_world files]; rewrite elem_of_files_seen; vm_compute; intros H; discriminate H.
  - repeat constructor; vm_compute; intros H; discriminate H.
  - intros env. apply (proj2 (analyzeProject_build_system env (host_world manifest_elsewhere))).
    cbn [host_world files]. rewrite elem_of_files_seen. vm_compute. reflexivity.
Qed.
End Analyzer.

(* ===================================================================== *)
(** ** Properties: the workspace state manager *)
(* ===================================================================== *)

Section StateManager.
Import WorkspaceStateManager.

Lemma includes_spec (x : string) (l : list string) : includes x l = true <-> x ∈ l.
Proof. unfold includes. apply bool_decide_eq_true. Qed.

Lemma stored_ignored_after (warningId : string) env w :
  stored_ignored (after_ignoreWarning warningId env w) =
  if includes warningId (stored_ignored w)
  then stored_ignored w
  else stored_ignored w ++ [warningId].
Proof.
  unfold after_ignoreWarning, stored_ignored. cbn.
  destruct (includes warningId (default [] (ignoredWarnings (globalState w)))); reflexivity.
Qed.

Lemma globalState_after_known (warningId : string) env w :
  includes warningId (stored_ignored w) = true ->
  globalState (after_ignoreWarning warningId env w) = globalState w.
Proof.
  unfold after_ignoreWarning, stored_ignored. intros H. cbn. rewrite H. reflexivity.
Qed.

Lemma includes_after (warningId : string) env w :
  includes warningId (stored_ignored (after_ignoreWarning warningId env w)) = true.
Proof.
  rewrite stored_ignored_after.
  destruct (includes warningId (stored_ignored w)) eqn:Hin; [exact Hin |].
  apply includes_spec. apply elem_of_app. right. left.
Qed.

(** [recordUpgradeStart] is what appends to the history. *)
Lemma recordUpgradeStart_appends (info : UpgradeInfo) env w :
  exists entry,
    entry_info entry = info /\ status entry = in_progress /\
    upgradeHistory (globalState (run (recordUpgradeStart info) env w).2)
    = Some (default [] (upgradeHistory (globalState w)) ++ [entry]).
Proof. eexists. split; [| split]; [| | reflexivity]; reflexivity. Qed.

Lemma run_isWarningIgnored (warningId : string) env w :
  (run (isWarningIgnored warningId) env w).1 = Returned (includes warningId (stored_ignored w)).
Proof. reflexivity. Qed.

(** C10. [ignoreWarning] applied a second time changes nothing in the
    store; a list without duplicates stays without duplicates; and after the
    call [isWarningIgnored] answers true for that warning. *)
Theorem ignoreWarning_idempotent (warningId : string) (env1 env2 env3 : Env) (w : World) :
  let w1 := after_ignoreWarning warningId env1 w in
  let w2 := after_ignoreWarning warningId env2 w1 in
  globalState w2 = globalState w1 /\
  stored_ignored w2 = stored_ignored w1 /\
  (NoDup (stored_ignored w) -> NoDup (stored_ignored w1)) /\
  (run (isWarningIgnored warningId) env3 w1).1 = Returned true.
Proof.
  cbn zeta.
  pose proof (includes_after warningId env1 w) as Hin.
  split; [| split; [| split]].
  - by apply globalState_after_known.
  - rewrite (stored_ignored_after warningId env2). by rewrite Hin.
  - intros Hnd. rewrite stored_ignored_after.
    destruct (includes warningId (stored_ignored w)) eqn:Hw; [exact Hnd |].
    apply NoDup_app. split; [exact Hnd |]. split; [| apply NoDup_singleton].
    intros x Hx Hx'. apply list_elem_of_singleton in Hx'. subst x.
    apply includes_spec in Hx. congruence.
  - rewrite run_isWarningIgnored. by rewrite Hin.
Qed.

Lemma ignoreWarning_idempotent_witness :
  let w := {| files := ∅;
              globalState := {| lastUpgradeTimestamp := None; upgradeHistory := None;
                                userPreferences := None;
                                ignoredWarnings := Some ["deprecated-api"] |};
              trace := [] |} in
  NoDup (stored_ignored w) /\
  stored_ignored (after_ignoreWarning "raw-types" quiet_env w) = ["deprecated-api"; "raw-types"] /\
  NoDup (stored_ignored (after_ignoreWarning "raw-types" quiet_env w)).
Proof.
  intros w.
  assert (NoDup (stored_ignored w)) as Hnd.
  { cbn. apply NoDup_singleton. }
  split; [exact Hnd |]. split; [reflexivity |].
  apply (proj1 (proj2 (proj2 (ignoreWarning_idempotent "raw-types"
                                quiet_env quiet_env quiet_env w)))).
  exact Hnd.
Defined.
End StateManager.

(* ===================================================================== *)
(** ** Properties: the start-upgrade command *)
(* ===================================================================== *)

Section Command.
Import Extension.

Lemma all_calls_impl (P Q : forall X, Call X -> Prop) {R} (p : Prog R) :
  (forall X c, P X c -> Q X c) -> all_calls P p -> all_calls Q p.
Proof.
  intros HPQ Hp. induction Hp; constructor; auto.
Qed.

Lemma new_events_split (w w1 w2 : World) :
  (exists evs, trace w1 = trace w ++ evs) ->
  (exists evs, trace w2 = trace w1 ++ evs) ->
  new_events w w2 = new_events w w1 ++ new_events w1 w2.
Proof.
  intros [evs1 H1] [evs2 H2].
  rewrite (new_events_app w w1 evs1 H1), (new_events_app w1 w2 evs2 H2).
  by apply new_events_trans with w1.
Qed.

Lemma no_rejection_events (evs : list Event) :
  Forall (fun ev => is_webview_call (ev_call ev) = false) evs ->
  existsb is_plan_rejection evs = false.
Proof.
  induction 1 as [| [X c x] evs Hc _ IH]; [reflexivity |].
  cbn [existsb]. rewrite IH, orb_false_r.
  destruct c; try reflexivity. discriminate Hc.
Qed.

Lemma no_exec_events (evs : list Event) :
  Forall (fun ev => is_exec_call (ev_call ev) = false) evs ->
  existsb is_recipe_exec evs = false.
Proof.
  induction 1 as [| [X c x] evs Hc _ IH]; [reflexivity |].
  cbn [existsb]. rewrite IH, orb_false_r.
  destruct c; try reflexivity. discriminate Hc.
Qed.

Lemma detectBuildSystem_calls : all_calls quiet_call ProjectAnalyzer.detectBuildSystem.
Proof.
  unfold ProjectAnalyzer.detectBuildSystem, mbind, prog_mbind, call. cbn [prog_bind].
  constructor; [by repeat split | intros pomExists].
  constructor; [by repeat split | intros [|]]; cbn [prog_bind].
  - destruct pomExists; constructor.
  - constructor; [by repeat split | intros gradleExists]. cbn [prog_bind].
    destruct pomExists, gradleExists; constructor.
Qed.

Lemma analyzeProject_calls : all_calls quiet_call ProjectAnalyzer.analyzeProject.
Proof.
  unfold ProjectAnalyzer.analyzeProject, mbind, prog_mbind.
  apply all_calls_bind; [apply detectBuildSystem_calls | intros bs].
  cbn [ProjectAnalyzer.detectJavaVersion prog_bind].
  apply all_calls_bind; [| intros deps; constructor].
  unfold ProjectAnalyzer.analyzeDependencies, mbind, prog_mbind.
  apply all_calls_bind; [apply detectBuildSystem_calls | intros [|]; constructor].
Qed.

Lemma applyRecipes_calls (recipes : list string) :
  all_calls upgrade_call (OpenRewriteService.applyRecipes recipes).
Proof.
  induction recipes as [| recipe rest IH]; [constructor |].
  cbn. constructor; [by split |].
  intros [message |]; cbn; [constructor | exact IH].
Qed.

Lemma executeUpgrade_calls (plan : UpgradePlan) : all_calls upgrade_call (executeUpgrade plan).
Proof.
  unfold executeUpgrade, mbind, prog_mbind, call. cbn [prog_bind].
  constructor; [by split | intros _].
  constructor; [by split | intros _].
  apply all_calls_bind; [apply applyRecipes_calls | intros _].
  cbn. constructor; [by split | intros _].
  constructor; [by split | intros [e |]]; cbn; [constructor |].
  do 3 (constructor; [by split | intros _]).
  constructor.
Qed.

Lemma validateResults_calls : all_calls upgrade_call validateResults.
Proof. cbn. constructor; [by split | intros ?; constructor]. Qed.

Lemma handler_calls (error : JS.Thrown) :
  all_calls quiet_call (call (ShowErrorMessage ("Upgrade failed: " +:+ errorMessage error))).
Proof. apply all_calls_call. by repeat split. Qed.

Lemma quiet_call_upgrade_call X (c : Call X) : quiet_call X c -> upgrade_call X c.
Proof. intros (Hw & _ & Hs). by split. Qed.

(** The handler never writes to the durable store. *)
Lemma startUpgrade_calls :
  all_calls (fun X c => is_store_write_call c = false) startUpgrade.
Proof.
  unfold startUpgrade. apply all_calls_try_catch.
  - unfold mbind, prog_mbind. apply all_calls_bind.
    { apply all_calls_impl with quiet_call; [| apply analyzeProject_calls].
      by intros X c (_ & _ & Hs). }
    intros projectInfo.
    destruct (generatePlan_value projectInfo) as (jv & sb & _ & _ & ->).
    match goal with |- context [Ret ?v] => generalize v end. intros plan.
    unfold showUpgradePlan, call. cbn [prog_bind]. constructor; [reflexivity |].
    intros [|]; cbn [negb].
    + apply all_calls_bind.
      * apply all_calls_impl with upgrade_call; [| apply executeUpgrade_calls].
        by intros X c [_ Hs].
      * intros _. apply all_calls_impl with upgrade_call; [| apply validateResults_calls].
        by intros X c [_ Hs].
    + constructor.
  - intros e. apply all_calls_impl with quiet_call; [| apply handler_calls].
    by intros X c (_ & _ & Hs).
Qed.

Lemma events_webview_free {R} (p : Prog R) env w :
  all_calls upgrade_call p ->
  existsb is_plan_rejection (new_events w (run p env w).2) = false.
Proof.
  intros Hp. apply no_rejection_events.
  eapply Forall_impl; [apply (all_calls_events _ p env w Hp) |].
  by intros ev [Hw _].
Qed.

Lemma events_quiet {R} (p : Prog R) env w :
  all_calls quiet_call p ->
  existsb is_plan_rejection (new_events w (run p env w).2) = false /\
  existsb is_recipe_exec (new_events w (run p env w).2) = false.
Proof.
  intros Hp. pose proof (all_calls_events _ p env w Hp) as Hev. split.
  - apply no_rejection_events. eapply Forall_impl; [exact Hev |]. by intros ev (Hw & _ & _).
  - apply no_exec_events. eapply Forall_impl; [exact Hev |]. by intros ev (_ & He & _).
Qed.

(** C8. In a run of the start-upgrade handler in which the user cancels the
    plan shown to them, the handler returns normally, no external process of
    the transformation runner is started ([applyRecipes] is not reached), and
    the durable store, the upgrade history in it included, is what it was
    before the run. *)
Theorem startUpgrade_rejected_plan (env : Env) (w : World) :
  existsb is_plan_rejection (new_events w (run startUpgrade env w).2) = true ->
  (run startUpgrade env w).1 = Returned tt /\
  existsb is_recipe_exec (new_events w (run startUpgrade env w).2) = false /\
  globalState (run startUpgrade env w).2 = globalState w /\
  upgradeHistory (globalState (run startUpgrade env w).2) = upgradeHistory (globalState w).
Proof.
  intros Hrej.
  assert (globalState (run startUpgrade env w).2 = globalState w) as Hstore
    by apply run_store_frame, startUpgrade_calls.
  rewrite Hstore. cut ((run startUpgrade env w).1 = Returned tt /\
       existsb is_recipe_exec (new_events w (run startUpgrade env w).2) = false);
    [tauto |].
  revert Hrej. clear Hstore.
  unfold startUpgrade, mbind, prog_mbind. rewrite run_try_catch_bind.
  destruct (events_quiet ProjectAnalyzer.analyzeProject env w analyzeProject_calls)
    as [Hq1 Hq2].
  pose proof (run_trace ProjectAnalyzer.analyzeProject env w) as Ht1.
  destruct (run ProjectAnalyzer.analyzeProject env w) as [[projectInfo | e] w1];
    cbn [fst snd] in *.
  - destruct (generatePlan_value projectInfo) as (jv & sb & _ & _ & ->).
    match goal with |- context [Ret ?v] => generalize v end. intros plan.
    unfold showUpgradePlan, call. cbn [prog_bind try_catch].
    match goal with |- context [run ?p env w1] => set (rest := p) end.
    rewrite (new_events_split w w1 (run rest env w1).2 Ht1 (run_trace rest env w1)).
    subst rest. rewrite new_events_vis. cbn [run perform fst snd].
    rewrite !existsb_app, Hq1, Hq2. cbn [orb existsb].
    destruct (env bool (WebviewPlan plan) (trace w1)).
    + cbn [negb is_plan_rejection ev_call ev_answer orb].
      rewrite events_webview_free; [discriminate |].
      apply all_calls_try_catch.
      * apply all_calls_bind; [apply executeUpgrade_calls | intros _; apply validateResults_calls].
      * intros e. apply all_calls_impl with quiet_call; [| apply handler_calls].
        apply quiet_call_upgrade_call.
    + intros _. cbn [negb try_catch run fst snd]. rewrite new_events_refl.
      split; reflexivity.
  - set (h := call (ShowErrorMessage ("Upgrade failed: " +:+ errorMessage e))).
    rewrite (new_events_split w w1 (run h env w1).2 Ht1 (run_trace h env w1)).
    destruct (events_quiet h env w1 (handler_calls e)) as [Hh1 _].
    rewrite existsb_app, Hq1, Hh1. discriminate.
Qed.

(** With the user approving instead, the runner is started: the property
    above is not about a handler that never transforms. *)
Lemma startUpgrade_approved_runs_recipes :
  existsb is_recipe_exec
    (new_events (world_with ["pom.xml"])
       (run startUpgrade approving_env (world_with ["pom.xml"])).2) = true.
Proof. vm_compute. reflexivity. Qed.

Lemma startUpgrade_rejected_plan_witness :
  (run startUpgrade quiet_env (world_with ["pom.xml"])).1 = Returned tt /\
  existsb is_recipe_exec
    (new_events (world_with ["pom.xml"])
       (run startUpgrade quiet_env (world_with ["pom.xml"])).2) = false /\
  globalState (run startUpgrade quiet_env (world_with ["pom.xml"])).2
  = globalState (world_with ["pom.xml"]) /\
  upgradeHistory (globalState (run startUpgrade quiet_env (world_with ["pom.xml"])).2)
  = upgradeHistory (globalState (world_with ["pom.xml"])).
Proof.
  apply (startUpgrade_rejected_plan quiet_env (world_with ["pom.xml"])).
  vm_compute. reflexivity.
Defined.
End Command.

(* ===================================================================== *)
(** ** More properties: the workspace state manager *)
(* ===================================================================== *)

Section StateManagerMore.
Import WorkspaceStateManager UpgradeHistory UserPreferences.

Lemma stored_history_after_start (info : UpgradeInfo) env w :
  stored_history (run (recordUpgradeStart info) env w).2 =
  stored_history w ++ [{| entry_info := info; timestamp := now_at env w;
                          completedAt := None; status := in_progress |}].
Proof. reflexivity. Qed.

(** X1. [recordUpgradeStart] appends one in-progress entry stamped with the
    current time, records the same time as the last upgrade, and leaves the
    earlier entries, the preferences and the ignored warnings alone. *)
Theorem recordUpgradeStart_effect (info : UpgradeInfo) (env : Env) (w : World) :
  let w' := (run (recordUpgradeStart info) env w).2 in
  (run (recordUpgradeStart info) env w).1 = Returned tt /\
  stored_history w' =
    stored_history w ++ [{| entry_info := info; timestamp := now_at env w;
                            completedAt := None; status := in_progress |}] /\
  lastUpgradeTimestamp (globalState w') = Some (now_at env w) /\
  userPreferences (globalState w') = userPreferences (globalState w) /\
  ignoredWarnings (globalState w') = ignoredWarnings (globalState w).
Proof.
  cbn zeta. unfold stored_history, now_at. cbn.
  match goal with |- context [env unit ?c ?h] => destruct (env unit c h) end.
  repeat split.
Qed.

(** X2. With no history stored, [updateUpgradeStatus] does nothing: the store is
    not written. *)
Theorem updateUpgradeStatus_without_history (newStatus : UpgradeStatus) (env : Env) (w : World) :
  stored_history w = [] ->
  (run (updateUpgradeStatus newStatus) env w).1 = Returned tt /\
  globalState (run (updateUpgradeStatus newStatus) env w).2 = globalState w /\
  existsb (fun ev => is_store_write_call (ev_call ev))
          (new_events w (run (updateUpgradeStatus newStatus) env w).2) = false.
Proof.
  unfold stored_history. intros Hh.
  unfold updateUpgradeStatus, getUpgradeHistory, mbind, prog_mbind, call.
  cbn [prog_bind]. split; [| split].
  - cbn. rewrite Hh. reflexivity.
  - cbn. rewrite Hh. reflexivity.
  - rewrite new_events_vis. cbn [run perform fst snd memento_get].
    rewrite Hh. cbn [default from_option id length Nat.sub lookup list_lookup run snd].
    rewrite new_events_refl. reflexivity.
Qed.

Lemma updateUpgradeStatus_without_history_witness :
  globalState (run (updateUpgradeStatus failed) quiet_env (world_with [])).2
  = globalState (world_with []).
Proof.
  apply (updateUpgradeStatus_without_history failed quiet_env (world_with [])).
  reflexivity.
Defined.

Lemma run_updateUpgradeStatus_history (newStatus : UpgradeStatus) env w :
  exists now,
    (run (updateUpgradeStatus newStatus) env w).1 = Returned tt /\
    stored_history (run (updateUpgradeStatus newStatus) env w).2 =
    match last (stored_history w) with
    | Some e =>
        <[(length (stored_history w) - 1)%nat :=
            {| entry_info := entry_info e; timestamp := timestamp e;
               completedAt := Some now; status := newStatus |}]> (stored_history w)
    | None => stored_history w
    end /\
    lastUpgradeTimestamp (globalState (run (updateUpgradeStatus newStatus) env w).2)
    = lastUpgradeTimestamp (globalState w) /\
    userPreferences (globalState (run (updateUpgradeStatus newStatus) env w).2)
    = userPreferences (globalState w) /\
    ignoredWarnings (globalState (run (updateUpgradeStatus newStatus) env w).2)
    = ignoredWarnings (globalState w).
Proof.
  unfold stored_history.
  unfold updateUpgradeStatus, getUpgradeHistory, mbind, prog_mbind, call.
  cbn [prog_bind run perform fst snd memento_get].
  set (h := default [] (upgradeHistory (globalState w))).
  rewrite last_lookup. replace (Nat.pred (length h)) with (length h - 1)%nat by lia.
  destruct (h !! (length h - 1)%nat) as [e |] eqn:He.
  - cbn. eexists. repeat split.
  - exists "". cbn. repeat split.
Qed.

(** X3. [updateUpgradeStatus] rewrites the last history entry only: the history
    keeps its length and every earlier entry, the last entry keeps its info
    and timestamp and gets the new status and a completion time; the other
    keys of the store are untouched. *)
Theorem updateUpgradeStatus_last_entry_only (newStatus : UpgradeStatus) (env : Env) (w : World) :
  let w' := (run (updateUpgradeStatus newStatus) env w).2 in
  length (stored_history w') = length (stored_history w) /\
  (forall i, (S i < length (stored_history w))%nat ->
             stored_history w' !! i = stored_history w !! i) /\
  (forall e, last (stored_history w) = Some e ->
     exists e', last (stored_history w') = Some e' /\
                entry_info e' = entry_info e /\ timestamp e' = timestamp e /\
                status e' = newStatus /\ is_Some (completedAt e')) /\
  lastUpgradeTimestamp (globalState w') = lastUpgradeTimestamp (globalState w) /\
  userPreferences (globalState w') = userPreferences (globalState w) /\
  ignoredWarnings (globalState w') = ignoredWarnings (globalState w).
Proof.
  cbn zeta.
  destruct (run_updateUpgradeStatus_history newStatus env w)
    as (now & _ & Hh & Ht & Hp & Hi).
  rewrite Hh, Ht, Hp, Hi. clear Hh Ht Hp Hi.
  set (h := stored_history w).
  destruct (last h) as [e |] eqn:He.
  - split; [apply length_insert |]. split; [| split; [| done]].
    + intros i Hi. apply list_lookup_insert_ne. lia.
    + intros e0 [= <-].
      exists {| entry_info := entry_info e; timestamp := timestamp e;
                completedAt := Some now; status := newStatus |}.
      split; [| repeat split; eauto].
      rewrite last_lookup, length_insert.
      replace (Nat.pred (length h)) with (length h - 1)%nat by lia.
      apply list_lookup_insert_eq.
      rewrite last_lookup in He. apply lookup_lt_Some in He. lia.
  - split; [done |]. split; [done |]. split; [| done]. intros e0 [=].
Qed.

Lemma updateUpgradeStatus_last_entry_only_witness :
  let info := {| info_fromVersion := "8"; info_toVersion := "11";
                 info_buildTool := "maven"; info_projectPath := "/work" |} in
  let w := (run (recordUpgradeStart info) quiet_env (world_with [])).2 in
  exists e', last (stored_history (run (updateUpgradeStatus completed) quiet_env w).2) = Some e' /\
             entry_info e' = info /\ timestamp e' = "2024-01-01T00:00:00.000Z" /\
             status e' = completed /\ is_Some (completedAt e').
Proof.
  intros info w.
  apply (proj1 (proj2 (proj2 (updateUpgradeStatus_last_entry_only completed quiet_env w)))
           {| entry_info := info; timestamp := "2024-01-01T00:00:00.000Z";
              completedAt := None; status := in_progress |}).
  reflexivity.
Defined.

(** X4. Starting an upgrade and then setting its status leaves a history that is
    the old one followed by one entry for that upgrade, with that status. *)
Theorem recordUpgradeStart_then_updateUpgradeStatus (info : UpgradeInfo)
    (newStatus : UpgradeStatus) (env1 env2 : Env) (w : World) :
  let w1 := (run (recordUpgradeStart info) env1 w).2 in
  let w2 := (run (updateUpgradeStatus newStatus) env2 w1).2 in
  exists e,
    stored_history w2 = stored_history w ++ [e] /\
    entry_info e = info /\ timestamp e = now_at env1 w /\
    status e = newStatus /\ is_Some (completedAt e).
Proof.
  cbn zeta.
  pose proof (stored_history_after_start info env1 w) as Hh1.
  set (w1 := (run (recordUpgradeStart info) env1 w).2) in *.
  destruct (run_updateUpgradeStatus_history newStatus env2 w1) as (now & _ & Hh2 & _).
  rewrite Hh2, Hh1. rewrite last_snoc.
  rewrite length_app. cbn [length].
  replace (length (stored_history w) + 1 - 1)%nat with (length (stored_history w) + 0)%nat
    by lia.
  rewrite insert_app_r. cbn.
  eexists. split; [reflexivity |]. repeat split. eauto.
Qed.

Lemma getUserPreferences_value env w :
  (run getUserPreferences env w).1 = Returned (stored_preferences w).
Proof. reflexivity. Qed.

Lemma stored_preferences_after_save (key value : string) env w :
  stored_preferences (run (savePreference key value) env w).2
  = object_assign key value (stored_preferences w).
Proof. reflexivity. Qed.

(** X5. A saved preference reads back: after [savePreference key value], for a
    key other than [__proto__], [getUserPreferences] holds [value] under
    [key] and what it held before under every other key; the history, the
    last-upgrade time and the ignored warnings are untouched. *)
Theorem savePreference_reads_back (key value : string) (env env' : Env) (w : World) :
  key <> "__proto__" ->
  let w' := (run (savePreference key value) env w).2 in
  exists preferences,
    (run getUserPreferences env' w').1 = Returned preferences /\
    preferences !! key = Some value /\
    (forall other, other <> key -> preferences !! other = stored_preferences w !! other) /\
    upgradeHistory (globalState w') = upgradeHistory (globalState w) /\
    lastUpgradeTimestamp (globalState w') = lastUpgradeTimestamp (globalState w) /\
    ignoredWarnings (globalState w') = ignoredWarnings (globalState w).
Proof.
  intros Hkey. cbn zeta. exists (stored_preferences (run (savePreference key value) env w).2).
  split; [apply getUserPreferences_value |].
  rewrite stored_preferences_after_save. unfold object_assign.
  rewrite bool_decide_eq_false_2 by done.
  split; [apply lookup_insert_eq |]. split; [| repeat split].
  intros other Hne. by apply lookup_insert_ne.
Qed.

Lemma savePreference_reads_back_witness :
  exists preferences,
    (run getUserPreferences quiet_env
         (run (savePreference "targetJavaVersion" "21") quiet_env (world_with [])).2).1
    = Returned preferences /\
    preferences !! "targetJavaVersion" = Some "21".
Proof.
  destruct (savePreference_reads_back "targetJavaVersion" "21" quiet_env quiet_env
              (world_with [])) as (preferences & H1 & H2 & _).
  - discriminate.
  - exists preferences. split; [exact H1 | exact H2].
Defined.

(** X6. Saving twice under one key keeps the last value only; saving under two
    different keys gives the same preferences in either order; and saving
    under [__proto__] changes no preference. *)
Theorem savePreference_composes (k1 v1 k2 v2 : string) (env1 env2 env3 env4 : Env) (w : World) :
  let save k v env w := (run (savePreference k v) env w).2 in
  stored_preferences (save k1 v2 env2 (save k1 v1 env1 w))
  = stored_preferences (save k1 v2 env3 w) /\
  (k1 <> k2 ->
   stored_preferences (save k2 v2 env2 (save k1 v1 env1 w))
   = stored_preferences (save k1 v1 env4 (save k2 v2 env3 w))) /\
  stored_preferences (save "__proto__" v1 env1 w) = stored_preferences w.
Proof.
  cbv beta zeta. rewrite !stored_preferences_after_save. unfold object_assign.
  split; [| split].
  - case_bool_decide; [done |]. apply insert_insert_eq.
  - intros Hne. repeat case_bool_decide; try done. by apply insert_insert_ne.
  - reflexivity.
Qed.

Lemma savePreference_composes_witness :
  stored_preferences
    (run (savePreference "skipTests" "true") quiet_env
       (run (savePreference "buildTool" "gradle") quiet_env (world_with [])).2).2
  = stored_preferences
      (run (savePreference "buildTool" "gradle") quiet_env
         (run (savePreference "skipTests" "true") quiet_env (world_with [])).2).2.
Proof.
  apply (proj1 (proj2 (savePreference_composes "buildTool" "gradle" "skipTests" "true"
                         quiet_env quiet_env quiet_env quiet_env (world_with [])))).
  discriminate.
Defined.


(** X8. After [ignoreWarning warningId] the ignored warnings are exactly the
    earlier ones and [warningId]; the earlier ones keep their order at the
    front; the rest of the store is untouched. *)
Theorem ignoreWarning_adds_only (warningId : string) (env : Env) (w : World) :
  let w' := after_ignoreWarning warningId env w in
  (forall x, x ∈ stored_ignored w' <-> x = warningId \/ x ∈ stored_ignored w) /\
  stored_ignored w `prefix_of` stored_ignored w' /\
  upgradeHistory (globalState w') = upgradeHistory (globalState w) /\
  lastUpgradeTimestamp (globalState w') = lastUpgradeTimestamp (globalState w) /\
  userPreferences (globalState w') = userPreferences (globalState w).
Proof.
  cbn zeta. rewrite stored_ignored_after.
  split; [| split].
  - intros x. destruct (includes warningId (stored_ignored w)) eqn:Hin.
    + apply includes_spec in Hin. split; [by right |]. by intros [-> |].
    + rewrite elem_of_app, list_elem_of_singleton. tauto.
  - destruct (includes warningId (stored_ignored w)); [done |]. by apply prefix_app_r.
  - unfold after_ignoreWarning, ignoreWarning, getIgnoredWarnings, mbind, prog_mbind, call.
    cbn [prog_bind run perform fst snd memento_get].
    destruct (negb _); cbn; repeat split.
Qed.

End StateManagerMore.

(* ===================================================================== *)
(** ** More properties: runs, piece by piece *)
(* ===================================================================== *)

Section EventsOf.

Lemma unit_event (c : Call unit) (x : unit) : mkEvent unit c x = notified c.
Proof. by destruct x. Qed.

Lemma events_of_ret {R} (r : R) env w : events_of (Ret r) env w = [].
Proof. apply new_events_refl. Qed.

Lemma events_of_throw {R} (e : JS.Thrown) env w : events_of (@Throw R e) env w = [].
Proof. apply new_events_refl. Qed.

Lemma events_of_vis {R X} (c : Call X) (k : X -> Prog R) env w :
  events_of (Vis c k) env w =
  mkEvent X c (perform c env w).1 :: events_of (k (perform c env w).1) env (perform c env w).2.
Proof. apply new_events_vis. Qed.

Lemma outcome_vis {R X} (c : Call X) (k : X -> Prog R) env w :
  (run (Vis c k) env w).1 = (run (k (perform c env w).1) env (perform c env w).2).1.
Proof. cbn. by destruct (perform c env w). Qed.

Lemma world_vis {R X} (c : Call X) (k : X -> Prog R) env w :
  (run (Vis c k) env w).2 = (run (k (perform c env w).1) env (perform c env w).2).2.
Proof. cbn. by destruct (perform c env w). Qed.

Lemma outcome_bind {A R} (p : Prog A) (f : A -> Prog R) env w :
  (run (prog_bind p f) env w).1 =
  match (run p env w).1 with
  | Returned a => (run (f a) env (run p env w).2).1
  | Rejected e => Rejected e
  end.
Proof. rewrite run_bind. by destruct (run p env w) as [[a | e] w1]. Qed.

Lemma world_bind {A R} (p : Prog A) (f : A -> Prog R) env w :
  (run (prog_bind p f) env w).2 =
  match (run p env w).1 with
  | Returned a => (run (f a) env (run p env w).2).2
  | Rejected e => (run p env w).2
  end.
Proof. rewrite run_bind. by destruct (run p env w) as [[a | e] w1]. Qed.

Lemma events_of_bind {A R} (p : Prog A) (f : A -> Prog R) env w :
  events_of (prog_bind p f) env w =
  events_of p env w ++
  match (run p env w).1 with
  | Returned a => events_of (f a) env (run p env w).2
  | Rejected _ => []
  end.
Proof.
  unfold events_of. rewrite world_bind.
  destruct (run p env w) as [[a | e] w1] eqn:Hr; cbn [fst snd].
  - apply new_events_split.
    + pose proof (run_trace p env w) as H. by rewrite Hr in H.
    + apply run_trace.
  - by rewrite app_nil_r.
Qed.

Lemma outcome_try_catch {R} (p : Prog R) (h : JS.Thrown -> Prog R) env w :
  (run (try_catch p h) env w).1 =
  match (run p env w).1 with
  | Returned a => Returned a
  | Rejected e => (run (h e) env (run p env w).2).1
  end.
Proof. rewrite run_try_catch. by destruct (run p env w) as [[a | e] w1]. Qed.

Lemma world_try_catch {R} (p : Prog R) (h : JS.Thrown -> Prog R) env w :
  (run (try_catch p h) env w).2 =
  match (run p env w).1 with
  | Returned a => (run p env w).2
  | Rejected e => (run (h e) env (run p env w).2).2
  end.
Proof. rewrite run_try_catch. by destruct (run p env w) as [[a | e] w1]. Qed.

Lemma events_of_try_catch {R} (p : Prog R) (h : JS.Thrown -> Prog R) env w :
  events_of (try_catch p h) env w =
  events_of p env w ++
  match (run p env w).1 with
  | Returned _ => []
  | Rejected e => events_of (h e) env (run p env w).2
  end.
Proof.
  unfold events_of. rewrite world_try_catch.
  destruct (run p env w) as [[a | e] w1] eqn:Hr; cbn [fst snd].
  - by rewrite app_nil_r.
  - apply new_events_split.
    + pose proof (run_trace p env w) as H. by rewrite Hr in H.
    + apply run_trace.
Qed.

Lemma events_of_call_unit (c : Call unit) env w : events_of (call c) env w = [notified c].
Proof.
  unfold call. rewrite events_of_vis, events_of_ret. by rewrite unit_event.
Qed.

Lemma outcome_call_unit (c : Call unit) env w : (run (call c) env w).1 = Returned tt.
Proof. unfold call. rewrite outcome_vis. cbn. by destruct (perform c env w).1. Qed.

End EventsOf.

(* ===================================================================== *)
(** ** More properties: the transformation runner *)
(* ===================================================================== *)

Section RunnerMore.
Import OpenRewriteService.

Lemma perform_exec (command : string) env w :
  (perform (ChildExec command) env w).1 = env _ (ChildExec command) (trace w).
Proof. reflexivity. Qed.

Lemma applyRecipes_runs (recipes : list string) (env : Env) (w : World) :
  ((run (applyRecipes recipes) env w).1 = Returned tt /\
   events_of (applyRecipes recipes) env w = map exec_ok recipes) \/
  (exists ran recipe rest message,
     recipes = ran ++ recipe :: rest /\
     events_of (applyRecipes recipes) env w = map exec_ok ran ++ [exec_failed recipe message] /\
     (run (applyRecipes recipes) env w).1 = Rejected (recipe_error recipe message)).
Proof.
  revert w. induction recipes as [| recipe rest IH]; intros w.
  - left. split; [reflexivity | apply events_of_ret].
  - assert (applyRecipes (recipe :: rest) =
            Vis (ChildExec (recipe_command recipe))
                (fun error =>
                   prog_bind
                     (try_catch
                        match error with
                        | Some message => Throw (JS.ErrorObject JS.ExecException message)
                        | None => Ret tt
                        end
                        (fun error => Throw (rethrow recipe error)))
                     (fun _ => applyRecipes rest))) as Hstep by reflexivity.
    rewrite Hstep. clear Hstep. rewrite events_of_vis, outcome_vis.
    destruct (perform (ChildExec (recipe_command recipe)) env w) as [[message |] w1];
      cbn [fst snd try_catch prog_bind].
    + right. exists [], recipe, rest, message.
      split; [reflexivity |]. split; [| reflexivity].
      by rewrite events_of_throw.
    + destruct (IH w1) as [[Hout Hev] | (ran & r & rest' & message & Hrec & Hev & Hout)].
      * left. split; [exact Hout |]. cbn [map]. by rewrite Hev.
      * right. exists (recipe :: ran), r, rest', message.
        split; [by rewrite Hrec |]. split; [| exact Hout]. cbn [map app]. by rewrite Hev.
Qed.

(** X9. [applyRecipes] starts one process per recipe, in the order of the list,
    and stops at the first that fails: either every recipe ran and it
    resolves, or the run is the recipes before the failing one, then the
    failing one, and it rejects with the error naming that recipe and
    carrying the process error's message; the recipes after it are not
    started. Every call it makes starts a process, and it makes at most
    one per recipe. *)
Theorem applyRecipes_stops_at_first_failure (recipes : list string) (env : Env) (w : World) :
  (((run (applyRecipes recipes) env w).1 = Returned tt /\
    events_of (applyRecipes recipes) env w = map exec_ok recipes) \/
   (exists ran recipe rest message,
      recipes = ran ++ recipe :: rest /\
      events_of (applyRecipes recipes) env w = map exec_ok ran ++ [exec_failed recipe message] /\
      (run (applyRecipes recipes) env w).1 = Rejected (recipe_error recipe message))) /\
  Forall (fun ev => is_exec_call (ev_call ev) = true) (events_of (applyRecipes recipes) env w) /\
  (length (events_of (applyRecipes recipes) env w) <= length recipes)%nat.
Proof.
  pose proof (applyRecipes_runs recipes env w) as Hruns.
  split; [exact Hruns |].
  destruct Hruns as [[_ Hev] | (ran & r & rest & m & Hrec & Hev & _)]; rewrite Hev.
  - split; [| by rewrite length_map].
    apply Forall_forall. intros ev Hin. apply list_elem_of_fmap in Hin as (x & -> & _).
    reflexivity.
  - split.
    + apply Forall_app. split; [| by repeat constructor].
      apply Forall_forall. intros ev Hin. apply list_elem_of_fmap in Hin as (x & -> & _).
      reflexivity.
    + rewrite Hrec, !length_app, length_map. cbn [length]. lia.
Qed.

End RunnerMore.

(* ===================================================================== *)
(** ** More properties: the start-upgrade command *)
(* ===================================================================== *)

Section CommandMore.
Import Extension.

Lemma executeUpgrade_unfold (plan : UpgradePlan) :
  executeUpgrade plan =
  Vis (WithProgress "Upgrading Java Project") (fun _ =>
  Vis (ProgressReport "Applying code transformations...") (fun _ =>
  prog_bind (OpenRewriteService.applyRecipes (recipes plan)) (fun _ =>
  Vis (ProgressReport "Updating dependencies...") (fun _ =>
  prog_bind (updateDependencies (dependencyUpdates plan)) (fun _ =>
  Vis (ProgressReport "Fixing build issues...") (fun _ =>
  Vis (ProgressReport "Running tests...") (fun _ =>
  Vis (ProgressReport "Checking for vulnerabilities...") (fun _ =>
  CVEValidator.validate)))))))).
Proof. reflexivity. Qed.

Lemma updateDependencies_runs (updates : list DependencyUpdate) env w :
  exists r,
    events_of (updateDependencies updates) env w
    = [mkEvent (option JS.Thrown) (UpdateDependencies updates) r] /\
    (run (updateDependencies updates) env w).1
    = match r with Some e => Rejected e | None => Returned tt end.
Proof.
  unfold updateDependencies, mbind, prog_mbind, call. cbn [prog_bind].
  rewrite events_of_vis, outcome_vis.
  destruct (perform (UpdateDependencies updates) env w) as [[e |] w1]; cbn [fst snd].
  - exists (Some e). by rewrite events_of_throw.
  - exists None. by rewrite events_of_ret.
Qed.

Lemma executeUpgrade_runs (plan : UpgradePlan) (env : Env) (w : World) :
  (exists ran recipe rest message,
     recipes plan = ran ++ recipe :: rest /\
     (run (executeUpgrade plan) env w).1 = Rejected (recipe_error recipe message) /\
     events_of (executeUpgrade plan) env w
     = upgrade_started ++ map exec_ok ran ++ [exec_failed recipe message]) \/
  (exists e,
     (run (executeUpgrade plan) env w).1 = Rejected e /\
     events_of (executeUpgrade plan) env w
     = upgrade_started ++ map exec_ok (recipes plan) ++ dependencies_updated plan (Some e)) \/
  ((run (executeUpgrade plan) env w).1 = Returned tt /\
   events_of (executeUpgrade plan) env w
   = upgrade_started ++ map exec_ok (recipes plan) ++ dependencies_updated plan None
     ++ upgrade_finished).
Proof.
  rewrite executeUpgrade_unfold.
  rewrite events_of_vis, outcome_vis, unit_event.
  set (w1 := (perform (WithProgress "Upgrading Java Project") env w).2).
  cbn beta. rewrite events_of_vis, outcome_vis, unit_event.
  set (w2 := (perform (ProgressReport "Applying code transformations...") env w1).2).
  cbn beta. rewrite events_of_bind, outcome_bind.
  destruct (applyRecipes_runs (recipes plan) env w2)
    as [[Hout Hev] | (ran & r & rest & message & Hrec & Hev & Hout)];
    rewrite Hout, Hev.
  2: { left. exists ran, r, rest, message. split; [exact Hrec |]. split; [reflexivity |].
       unfold upgrade_started. cbn [app]. do 2 f_equal. apply app_nil_r. }
  right.
  set (w3 := (run (OpenRewriteService.applyRecipes (recipes plan)) env w2).2).
  rewrite events_of_vis, outcome_vis, unit_event.
  set (w4 := (perform (ProgressReport "Updating dependencies...") env w3).2).
  cbn beta. rewrite events_of_bind, outcome_bind.
  destruct (updateDependencies_runs (dependencyUpdates plan) env w4) as (r & Hev' & Hout').
  rewrite Hev', Hout'. destruct r as [e |].
  - left. exists e. split; [reflexivity |].
    unfold upgrade_started, dependencies_updated. cbn [app]. reflexivity.
  - right.
    rewrite events_of_vis, outcome_vis, unit_event. cbn beta.
    rewrite events_of_vis, outcome_vis, unit_event. cbn beta.
    rewrite events_of_vis, outcome_vis, unit_event. cbn beta.
    split; [reflexivity |].
    change CVEValidator.validate with (@Ret unit tt). rewrite events_of_ret.
    unfold upgrade_started, dependencies_updated, upgrade_finished.
    cbn [app]. reflexivity.
Qed.

(** X10. [executeUpgrade] works in a fixed order and stops at the first failure:
    the recipes one by one, then the dependency update, then the three
    remaining stages. A failing recipe ends the run before any dependency
    update; a failing dependency update ends it before the later stages.
    It shows no plan and leaves the durable store as it was. *)
Theorem executeUpgrade_fixed_order (plan : UpgradePlan) (env : Env) (w : World) :
  ((exists ran recipe rest message,
     recipes plan = ran ++ recipe :: rest /\
     (run (executeUpgrade plan) env w).1 = Rejected (recipe_error recipe message) /\
     events_of (executeUpgrade plan) env w
     = upgrade_started ++ map exec_ok ran ++ [exec_failed recipe message]) \/
  (exists e,
     (run (executeUpgrade plan) env w).1 = Rejected e /\
     events_of (executeUpgrade plan) env w
     = upgrade_started ++ map exec_ok (recipes plan) ++ dependencies_updated plan (Some e)) \/
  ((run (executeUpgrade plan) env w).1 = Returned tt /\
   events_of (executeUpgrade plan) env w
   = upgrade_started ++ map exec_ok (recipes plan) ++ dependencies_updated plan None
     ++ upgrade_finished)) /\
  globalState (run (executeUpgrade plan) env w).2 = globalState w.
Proof.
  split; [exact (executeUpgrade_runs plan env w) |].
  apply run_store_frame. eapply all_calls_impl; [| apply executeUpgrade_calls].
  by intros X c [_ Hs].
Qed.

Ltac events_eq :=
  unfold plan_shown, upgrade_started, dependencies_updated, upgrade_finished;
  repeat rewrite <- app_assoc; cbn [app]; rewrite ?app_nil_r;
  repeat rewrite <- app_assoc; cbn [app]; reflexivity.

Lemma validateResults_runs env w :
  (run validateResults env w).1 = Returned tt /\
  events_of validateResults env w = [notified (ShowInformationMessage success_summary)].
Proof.
  change validateResults with (call (ShowInformationMessage success_summary)).
  split; [apply outcome_call_unit | apply events_of_call_unit].
Qed.

Lemma approved_upgrade_runs (plan : UpgradePlan) env w :
  (exists ran recipe rest message,
     recipes plan = ran ++ recipe :: rest /\
     (run (approved_upgrade plan) env w).1 = Rejected (recipe_error recipe message) /\
     events_of (approved_upgrade plan) env w
     = upgrade_started ++ map exec_ok ran ++ [exec_failed recipe message]) \/
  (exists e,
     (run (approved_upgrade plan) env w).1 = Rejected e /\
     events_of (approved_upgrade plan) env w
     = upgrade_started ++ map exec_ok (recipes plan) ++ dependencies_updated plan (Some e)) \/
  ((run (approved_upgrade plan) env w).1 = Returned tt /\
   events_of (approved_upgrade plan) env w
   = upgrade_started ++ map exec_ok (recipes plan) ++ dependencies_updated plan None
     ++ upgrade_finished ++ [notified (ShowInformationMessage success_summary)]).
Proof.
  unfold approved_upgrade. rewrite events_of_bind, outcome_bind.
  destruct (executeUpgrade_runs plan env w)
    as [(ran & r & rest & m & Hrec & Hout & Hev) | [(e & Hout & Hev) | [Hout Hev]]];
    rewrite Hout, Hev.
  - left. exists ran, r, rest, m. split; [exact Hrec |]. split; [reflexivity |].
    by rewrite app_nil_r.
  - right. left. exists e. split; [reflexivity |]. by rewrite app_nil_r.
  - right. right.
    destruct (validateResults_runs env (run (executeUpgrade plan) env w).2) as [Hv1 Hv2].
    rewrite Hv1, Hv2. split; [reflexivity |]. by rewrite <- !app_assoc.
Qed.

Lemma analyzeProject_outcome env w :
  (("pom.xml" ∉ files w) /\ ("build.gradle" ∉ files w) /\ ("build.gradle.kts" ∉ files w) /\
   (run ProjectAnalyzer.analyzeProject env w).1 = Rejected BuildSystemNotFound) \/
  (exists bs, (run ProjectAnalyzer.analyzeProject env w).1 = Returned (stub_project bs)).
Proof.
  rewrite run_analyzeProject, run_detectBuildSystem.
  case_bool_decide as H1; [right; by exists maven |].
  case_bool_decide as H2; [right; by exists gradle |].
  case_bool_decide as H3; [right; by exists gradle |].
  left. done.
Qed.

Lemma handler_body_after_analysis (bs : BuildSystem) :
  (fun projectInfo : ProjectInfo =>
     prog_bind (UpgradePlanGenerator.generatePlan projectInfo) (fun upgradePlan =>
     prog_bind (showUpgradePlan upgradePlan) (fun userApproved : bool =>
     if negb userApproved then Ret tt
     else prog_bind (executeUpgrade upgradePlan) (fun _ => validateResults))))
    (stub_project bs)
  = Vis (WebviewPlan stub_plan)
        (fun userApproved : bool =>
           if negb userApproved then Ret tt else approved_upgrade stub_plan).
Proof. destruct bs; reflexivity. Qed.

(** X11. Every run of the start-upgrade handler has one of five shapes, after
    the manifest probes of the analysis: no build system, one error
    notification; the plan shown and cancelled, nothing more; the plan
    approved and a recipe failing, one error notification naming the recipe
    and no dependency update; all recipes done and the dependency update
    failing, one error notification; or everything done in order and the
    summary shown. The handler itself never rejects. *)
Theorem startUpgrade_runs (env : Env) (w : World) :
  let probes := events_of ProjectAnalyzer.analyzeProject env w in
  (run startUpgrade env w).1 = Returned tt /\
  ((("pom.xml" ∉ files w) /\ ("build.gradle" ∉ files w) /\ ("build.gradle.kts" ∉ files w) /\
    events_of startUpgrade env w = probes ++ [error_shown BuildSystemNotFound]) \/
   events_of startUpgrade env w = probes ++ [plan_shown stub_plan false] \/
   (exists ran recipe rest message,
      recipes stub_plan = ran ++ recipe :: rest /\
      events_of startUpgrade env w
      = probes ++ [plan_shown stub_plan true] ++ upgrade_started
        ++ map exec_ok ran
        ++ [exec_failed recipe message; error_shown (recipe_error recipe message)]) \/
   (exists e,
      events_of startUpgrade env w
      = probes ++ [plan_shown stub_plan true] ++ upgrade_started
        ++ map exec_ok (recipes stub_plan) ++ dependencies_updated stub_plan (Some e)
        ++ [error_shown e]) \/
   events_of startUpgrade env w
   = probes ++ [plan_shown stub_plan true] ++ upgrade_started
     ++ map exec_ok (recipes stub_plan) ++ dependencies_updated stub_plan None
     ++ upgrade_finished ++ [notified (ShowInformationMessage success_summary)]).
Proof.
  cbn zeta. unfold startUpgrade, mbind, prog_mbind.
  rewrite outcome_try_catch, events_of_try_catch, outcome_bind, events_of_bind, world_bind.
  destruct (analyzeProject_outcome env w) as [(H1 & H2 & H3 & Hout) | [bs Hout]];
    rewrite Hout.
  - rewrite outcome_call_unit, events_of_call_unit, app_nil_r.
    split; [reflexivity |]. left. done.
  - set (w1 := (run ProjectAnalyzer.analyzeProject env w).2).
    rewrite handler_body_after_analysis.
    rewrite outcome_vis, events_of_vis, world_vis.
    destruct (perform (WebviewPlan stub_plan) env w1) as [[|] w2] eqn:Hp; cbn [fst snd negb].
    + destruct (approved_upgrade_runs stub_plan env w2)
        as [(ran & r & rest & m & Hrec & Ho & He) | [(e & Ho & He) | [Ho He]]];
        rewrite Ho, He.
      * rewrite outcome_call_unit, events_of_call_unit. split; [reflexivity |].
        right. right. left. exists ran, r, rest, m. split; [exact Hrec |].
        events_eq.
      * rewrite outcome_call_unit, events_of_call_unit. split; [reflexivity |].
        right. right. right. left. exists e. events_eq.
      * split; [reflexivity |]. right. right. right. right.
        events_eq.
    + cbn [run fst]. rewrite events_of_ret. split; [reflexivity |].
      right. left. events_eq.
Qed.

(** X12. No run of the start-upgrade handler, approved or not, writes to the
    durable store: the store is as before and no call of the run is a store
    write, so the upgrade is never recorded in the history. *)
Theorem startUpgrade_leaves_store (env : Env) (w : World) :
  globalState (run startUpgrade env w).2 = globalState w /\
  existsb (fun ev => is_store_write_call (ev_call ev)) (events_of startUpgrade env w) = false.
Proof.
  split; [apply run_store_frame, startUpgrade_calls |].
  pose proof (all_calls_events _ startUpgrade env w startUpgrade_calls) as Hev.
  unfold events_of. induction Hev as [| ev evs Hc _ IH]; [reflexivity |].
  cbn [existsb]. by rewrite Hc, IH.
Qed.

End CommandMore.

(* ===================================================================== *)
(** ** More properties: the project analyzer *)
(* ===================================================================== *)

Section AnalyzerMore.
Import ProjectAnalyzer.

(** X13. What [analyzeProject] resolves with is decided by the manifests alone:
    with [pom.xml] it is the maven project, without it and with either Gradle
    manifest the gradle project; the Java version is the placeholder
    [detected-version], there is no dependency and no framework version. *)
Theorem analyzeProject_result (env : Env) (w : World) :
  ("pom.xml" ∈ files w ->
   (run analyzeProject env w).1 = Returned (stub_project maven)) /\
  ("pom.xml" ∉ files w -> "build.gradle" ∈ files w \/ "build.gradle.kts" ∈ files w ->
   (run analyzeProject env w).1 = Returned (stub_project gradle)).
Proof.
  rewrite run_analyzeProject, run_detectBuildSystem. split.
  - intros H. by rewrite bool_decide_eq_true_2.
  - intros H1 H2. rewrite (bool_decide_eq_false_2 _ H1).
    destruct H2 as [H2 | H2]; rewrite (bool_decide_eq_true_2 _ H2); [reflexivity |].
    by rewrite orb_true_r.
Qed.

Lemma analyzeProject_result_witness :
  (run analyzeProject quiet_env (world_with ["settings.gradle"; "build.gradle.kts"])).1
  = Returned (stub_project gradle).
Proof.
  apply (proj2 (analyzeProject_result quiet_env
                  (world_with ["settings.gradle"; "build.gradle.kts"]))).
  - vm_compute. intros H. discriminate H.
  - right. vm_compute. reflexivity.
Defined.

Lemma detectBuildSystem_probes :
  all_calls (fun X c => is_probe_call c = true) detectBuildSystem.
Proof.
  unfold detectBuildSystem, mbind, prog_mbind, call. cbn [prog_bind].
  constructor; [reflexivity | intros pomExists].
  constructor; [reflexivity | intros [|]]; cbn [prog_bind].
  - destruct pomExists; constructor.
  - constructor; [reflexivity | intros gradleExists]. cbn [prog_bind].
    destruct pomExists, gradleExists; constructor.
Qed.

(** X14. The analysis only asks which files exist: every call it makes is an
    existence probe, and the store and the files are as before. *)
Theorem analyzeProject_only_probes (env : Env) (w : World) :
  Forall (fun ev => is_probe_call (ev_call ev) = true) (events_of analyzeProject env w) /\
  globalState (run analyzeProject env w).2 = globalState w /\
  files (run analyzeProject env w).2 = files w.
Proof.
  assert (all_calls (fun X c => is_probe_call c = true) analyzeProject) as Hcalls.
  { unfold analyzeProject, mbind, prog_mbind.
    apply all_calls_bind; [apply detectBuildSystem_probes | intros bs].
    cbn [detectJavaVersion prog_bind].
    apply all_calls_bind; [| intros deps; constructor].
    unfold analyzeDependencies, mbind, prog_mbind.
    apply all_calls_bind; [apply detectBuildSystem_probes | intros [|]; constructor]. }
  split; [apply (all_calls_events _ _ env w Hcalls) |].
  split; [| apply run_files_frame].
  apply run_store_frame. eapply all_calls_impl; [| exact Hcalls].
  intros X c Hc. by destruct c.
Qed.

End AnalyzerMore.

(* ===================================================================== *)
(** ** More properties: the upgrade plan generator *)
(* ===================================================================== *)

Section PlanGeneratorMore.
Import UpgradePlanGenerator.

Lemma versionMap_values (key v : string) :
  versionMap !! key = Some v -> v = "2.7.18" \/ v = "3.2.0".
Proof.
  unfold versionMap. intros H. apply elem_of_list_to_map_2 in H.
  repeat (apply elem_of_cons in H as [H | H]; [injection H as _ <-; tauto |]).
  by apply elem_of_nil in H.
Qed.

(** X15. For a non-empty framework version the target is never undefined and
    is decided by the first two segments: a release line of the table gives
    the table's version, which is 2.7.18 or 3.2.0; a line that spells a
    member of [Object.prototype] gives that member; any other gives 3.2.0. *)
Theorem determineSpringBootVersion_target (currentVersion : string) :
  currentVersion <> "" ->
  exists target,
    determineSpringBootVersion (Some currentVersion) = Ret (Some target) /\
    (forall v, versionMap !! major_minor currentVersion = Some v ->
               target = SpringVersion v /\ (v = "2.7.18" \/ v = "3.2.0")) /\
    (versionMap !! major_minor currentVersion = None ->
     major_minor currentVersion ∈ object_prototype_members ->
     target = ObjectPrototypeMember (major_minor currentVersion)) /\
    (versionMap !! major_minor currentVersion = None ->
     major_minor currentVersion ∉ object_prototype_members ->
     target = SpringVersion "3.2.0").
Proof.
  intros Hne. unfold determineSpringBootVersion.
  destruct currentVersion as [| c v]; [done |]. cbn [JS.truthy negb].
  fold (major_minor (String c v)). set (key := major_minor (String c v)).
  eexists. split; [reflexivity |]. unfold versionMap_get.
  destruct (versionMap !! key) as [t |] eqn:Hk.
  - cbn. split; [| split; discriminate].
    intros v' [= <-]. split; [reflexivity | by apply (versionMap_values key)].
  - split; [discriminate |]. case_bool_decide as Hm; cbn; split; done.
Qed.

Lemma determineSpringBootVersion_target_witness :
  determineSpringBootVersion (Some "2.6.3") = Ret (Some (SpringVersion "2.7.18")) /\
  determineSpringBootVersion (Some "constructor")
  = Ret (Some (ObjectPrototypeMember "constructor")) /\
  determineSpringBootVersion (Some "3.1.4") = Ret (Some (SpringVersion "3.2.0")).
Proof.
  split; [| split].
  - destruct (determineSpringBootVersion_target "2.6.3") as (target & H1 & H2 & _);
      [discriminate |].
    rewrite H1. destruct (H2 "2.7.18") as [-> _]; [vm_compute |]; reflexivity.
  - destruct (determineSpringBootVersion_target "constructor") as (target & H1 & _ & H3 & _);
      [discriminate |].
    rewrite H1, H3; [reflexivity | vm_compute; reflexivity |].
    change (major_minor "constructor") with "constructor". left.
  - destruct (determineSpringBootVersion_target "3.1.4") as (target & H1 & _ & _ & H4);
      [discriminate |].
    rewrite H1, H4; [reflexivity | vm_compute; reflexivity |].
    vm_compute. intros H. repeat (apply elem_of_cons in H as [H | H]; [discriminate H |]).
    by apply elem_of_nil in H.
Defined.

(** X16. The release line decides, not the patch: whatever follows the second
    dot, a 1.5 or 2.0 to 2.6 version goes to 2.7.18 and a 2.7 version to
    3.2.0. *)
Theorem determineSpringBootVersion_release_line (line patch : string) :
  (line ∈ ["1.5"; "2.0"; "2.1"; "2.2"; "2.3"; "2.4"; "2.5"; "2.6"] ->
   determineSpringBootVersion (Some (line +:+ "." +:+ patch))
   = Ret (Some (SpringVersion "2.7.18"))) /\
  determineSpringBootVersion (Some ("2.7" +:+ "." +:+ patch))
  = Ret (Some (SpringVersion "3.2.0")).
Proof.
  split; [| reflexivity].
  intros H. repeat (apply elem_of_cons in H as [-> | H]; [reflexivity |]).
  by apply elem_of_nil in H.
Qed.

Lemma determineSpringBootVersion_release_line_witness :
  determineSpringBootVersion (Some ("2.3" +:+ "." +:+ "12.RELEASE"))
  = Ret (Some (SpringVersion "2.7.18")).
Proof.
  apply (proj1 (determineSpringBootVersion_release_line "2.3" "12.RELEASE")).
  right. right. right. right. left.
Defined.

(** X17. The target Java version is never below the current one: when the
    current major version parses, the target's major version parses too, is
    at least 11 and at least the current one, and is strictly above it while
    the current one is below 21. *)
Theorem determineTargetJavaVersion_never_downgrades (currentVersion : string) (major : Z) :
  major_of currentVersion = Some major ->
  exists target major',
    determineTargetJavaVersion currentVersion = Ret target /\
    major_of target = Some major' /\
    major <= major' /\ 11 <= major' /\ (major < 21 -> major < major').
Proof.
  intros Hm. unfold determineTargetJavaVersion. fold (major_of currentVersion).
  rewrite Hm. cbn [JS.lt].
  destruct (major <? 11) eqn:H11; [exists "11", 11; repeat split; lia |].
  destruct (major <? 17) eqn:H17; [exists "17", 17; repeat split; lia |].
  destruct (major <? 21) eqn:H21; [exists "21", 21; repeat split; lia |].
  exists currentVersion, major. repeat split; try assumption; lia.
Qed.

Lemma determineTargetJavaVersion_never_downgrades_witness :
  exists target major',
    determineTargetJavaVersion "11.0.2" = Ret target /\
    major_of target = Some major' /\
    11 <= major' /\ 11 <= major' /\ (11 < 21 -> 11 < major').
Proof.
  apply (determineTargetJavaVersion_never_downgrades "11.0.2" 11). reflexivity.
Defined.

(** X18. The plan is made of the current Java version and the framework version
    alone: two projects that agree on these get the same plan, whatever their
    build systems and dependencies. *)
Theorem generatePlan_ignores_dependencies (p1 p2 : ProjectInfo) :
  currentJavaVersion p1 = currentJavaVersion p2 ->
  springBootVersion p1 = springBootVersion p2 ->
  generatePlan p1 = generatePlan p2.
Proof.
  intros Hj Hs.
  destruct (generatePlan_value p1) as (jv1 & sb1 & Hjv1 & Hsb1 & ->).
  destruct (generatePlan_value p2) as (jv2 & sb2 & Hjv2 & Hsb2 & ->).
  rewrite Hj, Hjv2 in Hjv1. rewrite Hs, Hsb2 in Hsb1.
  injection Hjv1 as <-. injection Hsb1 as <-.
  unfold recipes_of. by rewrite Hs.
Qed.

Lemma generatePlan_ignores_dependencies_witness :
  generatePlan {| buildSystem := maven; currentJavaVersion := "1.8";
                  dependencies := [{| groupId := "junit"; artifactId := "junit";
                                      version := "4.12" |}];
                  springBootVersion := Some "2.3.1" |}
  = generatePlan {| buildSystem := gradle; currentJavaVersion := "1.8";
                    dependencies := []; springBootVersion := Some "2.3.1" |}.
Proof.
  apply generatePlan_ignores_dependencies; reflexivity.
Defined.

End PlanGeneratorMore.

(* ===================================================================== *)
(** ** More properties: the dependency resolver *)
(* ===================================================================== *)

Section ResolverMore.
Import DependencyResolver DependencyResolverRest.

Lemma gt_irrefl (a : JSNumber.Number) : JSNumber.gt a a = false.
Proof. destruct a; cbn; try reflexivity. apply Z.ltb_irrefl. Qed.

Lemma parseVersion_segments (version : string) :
  pv_major (parseVersion version)
  = default (JSNumber.Finite 0) (JSNumber.parseInt <$> JS.split "." version !! 0%nat) /\
  pv_minor (parseVersion version)
  = default (JSNumber.Finite 0) (JSNumber.parseInt <$> JS.split "." version !! 1%nat).
Proof. unfold parseVersion. cbn. by rewrite !list_lookup_fmap. Qed.

(** X19. Two versions that share their first two dot-separated segments are a
    patch apart, whatever those segments read as; in particular a version
    and itself. *)
Theorem determineUpdateType_shared_segments (currentVersion newVersion : string) :
  take 2 (JS.split "." currentVersion) = take 2 (JS.split "." newVersion) ->
  determineUpdateType currentVersion newVersion = patch_update.
Proof.
  intros Hseg.
  assert (forall i, (i < 2)%nat ->
            JS.split "." currentVersion !! i = JS.split "." newVersion !! i) as Hi.
  { intros i Hlt.
    rewrite <- (lookup_take_lt (JS.split "." currentVersion) 2 i Hlt).
    rewrite <- (lookup_take_lt (JS.split "." newVersion) 2 i Hlt).
    by rewrite Hseg. }
  unfold determineUpdateType.
  destruct (parseVersion_segments currentVersion) as [-> ->].
  destruct (parseVersion_segments newVersion) as [-> ->].
  rewrite (Hi 0%nat), (Hi 1%nat) by lia.
  by rewrite !gt_irrefl.
Qed.

Lemma determineUpdateType_shared_segments_witness :
  determineUpdateType "2.7.3" "2.7.18" = patch_update.
Proof.
  apply determineUpdateType_shared_segments. reflexivity.
Defined.

Lemma getDependencyInfo_value (dependency : Dependency) (cache : gmap string DependencyInfo) :
  getDependencyInfo dependency cache =
  match cache !! cache_key dependency with
  | Some info => Ret (Some info, cache)
  | None =>
      let info := {| coordinates := dependency; info_javaVersion := "8";
                     transitiveDependencies := Some [] |} in
      Ret (Some info, <[cache_key dependency := info]> cache)
  end.
Proof.
  unfold getDependencyInfo, fetchDependencyInfo, mbind, prog_mbind.
  destruct (cache !! cache_key dependency) as [info |] eqn:Hk.
  - rewrite bool_decide_eq_true_2 by eauto. cbn. by rewrite Hk.
  - rewrite bool_decide_eq_false_2 by (intros [? ?]; congruence).
    cbn. by rewrite lookup_insert_eq.
Qed.

Lemma getDependencyInfo_runs (dependency : Dependency) (cache : gmap string DependencyInfo) :
  exists info cache',
    getDependencyInfo dependency cache = Ret (Some info, cache') /\
    cache' !! cache_key dependency = Some info /\
    (forall key, key <> cache_key dependency -> cache' !! key = cache !! key) /\
    (cache_of_fetches cache -> cache_of_fetches cache').
Proof.
  rewrite getDependencyInfo_value.
  destruct (cache !! cache_key dependency) as [info |] eqn:Hk.
  - exists info, cache. split; [reflexivity |]. split; [exact Hk |]. split; done.
  - cbn zeta. eexists _, _. split; [reflexivity |].
    split; [apply lookup_insert_eq |]. split.
    + intros key Hne. by apply lookup_insert_ne.
    + intros Hc key info Hl. destruct (decide (key = cache_key dependency)) as [-> | Hne].
      * rewrite lookup_insert_eq in Hl. injection Hl as <-. done.
      * rewrite lookup_insert_ne in Hl by done. by apply (Hc key).
Qed.

(** X20. The info cache: a first lookup of a coordinate stores its info under
    the key groupId:artifactId:version and touches no other key; a second
    lookup gives the same info and leaves the cache as it is; and a cache
    that holds only fetched infos stays so. *)
Theorem getDependencyInfo_caches (dependency : Dependency) (cache : gmap string DependencyInfo) :
  exists info cache',
    getDependencyInfo dependency cache = Ret (Some info, cache') /\
    cache' !! cache_key dependency = Some info /\
    (forall key, key <> cache_key dependency -> cache' !! key = cache !! key) /\
    getDependencyInfo dependency cache' = Ret (Some info, cache') /\
    (cache_of_fetches cache -> cache_of_fetches cache').
Proof.
  destruct (getDependencyInfo_runs dependency cache) as (info & cache' & Hget & Hl & Ho & Hc).
  exists info, cache'. split; [exact Hget |]. split; [exact Hl |]. split; [exact Ho |].
  split; [| exact Hc]. rewrite getDependencyInfo_value. by rewrite Hl.
Qed.

Lemma cache_of_fetches_empty : cache_of_fetches (∅ : gmap string DependencyInfo).
Proof. intros key info H. by rewrite lookup_empty in H. Qed.

Lemma getDependencyInfo_caches_witness :
  exists info cache',
    getDependencyInfo
      {| groupId := "org.slf4j"; artifactId := "slf4j-api"; version := "1.7.36" |} ∅
    = Ret (Some info, cache') /\
    cache_of_fetches cache'.
Proof.
  destruct (getDependencyInfo_caches
              {| groupId := "org.slf4j"; artifactId := "slf4j-api"; version := "1.7.36" |} ∅)
    as (info & cache' & H1 & _ & _ & _ & H5).
  exists info, cache'. split; [exact H1 |]. apply H5.
  intros key i H. by rewrite lookup_empty in H.
Defined.

(** X21. With a cache that holds only fetched infos, a coordinate has no
    transitive dependency. *)
Theorem getTransitiveDependencies_empty (dependency : Dependency)
    (cache : gmap string DependencyInfo) :
  cache_of_fetches cache ->
  exists cache',
    getTransitiveDependencies dependency cache = Ret ([], cache') /\
    cache_of_fetches cache'.
Proof.
  intros Hc. unfold getTransitiveDependencies, mbind, prog_mbind.
  destruct (getDependencyInfo_runs dependency cache)
    as (info & cache' & Hget & Hl & _ & Hc').
  rewrite Hget. cbn. exists cache'. split; [| by apply Hc'].
  destruct (Hc' Hc _ _ Hl) as [_ ->]. reflexivity.
Qed.

Lemma getTransitiveDependencies_empty_witness :
  exists cache',
    getTransitiveDependencies
      {| groupId := "org.slf4j"; artifactId := "slf4j-api"; version := "1.7.36" |} ∅
    = Ret ([], cache') /\
    cache_of_fetches cache'.
Proof.
  apply getTransitiveDependencies_empty.
  intros key i H. by rewrite lookup_empty in H.
Defined.

Lemma validateDependencyCompatibility_loop_value (results : list DependencyValidationResult)
    (dependencies : list Dependency) (cache : gmap string DependencyInfo) :
  exists cache',
    validateDependencyCompatibility_loop results dependencies cache =
    Ret (results ++ map (fun dep => {| val_dependency := dep; compatible := true;
                                       warnings := Some []; errors := None |})
                        dependencies,
         cache') /\
    (forall key, is_Some (cache' !! key) <->
                 is_Some (cache !! key) \/ key ∈ map cache_key dependencies).
Proof.
  revert results cache. induction dependencies as [| dep rest IH]; intros results cache.
  - exists cache. split; [cbn; by rewrite app_nil_r |].
    intros key. cbn. rewrite elem_of_nil. tauto.
  - cbn [validateDependencyCompatibility_loop]. unfold mbind, prog_mbind.
    destruct (getDependencyInfo_runs dep cache)
      as (info & cache1 & Hget & Hl & Hother & _).
    rewrite Hget. cbn [prog_bind try_catch].
    destruct (IH (results ++ [{| val_dependency := dep;
                                 compatible := checkCompatibility (Some info);
                                 warnings := Some (getCompatibilityWarnings (Some info));
                                 errors := None |}]) cache1) as (cache' & Hloop & Hkeys).
    exists cache'. split.
    + rewrite Hloop. cbn [map]. by rewrite <- app_assoc.
    + intros key. rewrite Hkeys. cbn [map]. rewrite elem_of_cons.
      destruct (decide (key = cache_key dep)) as [-> | Hne].
      * rewrite Hl. split; [intros _; right; by left | intros _; left; eauto].
      * rewrite (Hother key Hne). tauto.
Qed.

(** X22. [validateDependencyCompatibility] answers with one result per
    dependency, in order, each compatible, with no warning and no error,
    and without any call; afterwards the cache holds the keys it held and
    those of the dependencies. *)
Theorem validateDependencyCompatibility_all_compatible (dependencies : list Dependency)
    (cache : gmap string DependencyInfo) :
  exists cache',
    validateDependencyCompatibility dependencies cache =
    Ret (map (fun dep => {| val_dependency := dep; compatible := true;
                            warnings := Some []; errors := None |}) dependencies,
         cache') /\
    (forall key, is_Some (cache' !! key) <->
                 is_Some (cache !! key) \/ key ∈ map cache_key dependencies).
Proof. apply (validateDependencyCompatibility_loop_value []). Qed.

Lemma registry_queries_app (evs1 evs2 : list Event) :
  registry_queries (evs1 ++ evs2) = registry_queries evs1 ++ registry_queries evs2.
Proof. unfold registry_queries. apply List.filter_app. Qed.

(** One resolution on the registry's answer: what it asks and logs, and what
    it resolves with. *)
Lemma resolveLatestVersion_answered (dependency : Dependency) (constraints : VersionConstraints)
    env w :
  exists answer,
    events_of (resolveLatestVersion dependency constraints) env w
    = resolution_events dependency answer /\
    (run (resolveLatestVersion dependency constraints) env w).1
    = Returned match answer with
               | AxiosResponse (Some versions) => findBestVersion versions constraints
               | _ => None
               end.
Proof.
  unfold resolveLatestVersion, fetchAvailableVersions, mbind, prog_mbind, call.
  cbn [prog_bind try_catch]. rewrite outcome_vis, events_of_vis.
  exists (perform (AxiosGet mavenCentral (solr_query dependency)) env w).1.
  destruct (perform (AxiosGet mavenCentral (solr_query dependency)) env w)
    as [[e | [versions |]] w1]; cbn [fst snd prog_bind try_catch].
  - rewrite outcome_vis, events_of_vis, events_of_ret, unit_event. split; reflexivity.
  - rewrite events_of_ret. split; reflexivity.
  - rewrite outcome_vis, events_of_vis, events_of_ret, unit_event. split; reflexivity.
Qed.

Lemma suggestUpdates_loop_answered (JAVA_VERSION : option string)
    (updates : list SuggestedUpdate) (dependencies : list Dependency) env w :
  exists answers,
    length answers = length dependencies /\
    events_of (suggestUpdates_loop JAVA_VERSION updates dependencies) env w
    = concat (zip_with resolution_events dependencies answers) /\
    (run (suggestUpdates_loop JAVA_VERSION updates dependencies) env w).1
    = Returned (updates ++ omap id (zip_with suggestion_for dependencies answers)).
Proof.
  revert updates w. induction dependencies as [| dep rest IH]; intros updates w.
  - exists []. cbn [suggestUpdates_loop]. rewrite events_of_ret. cbn. by rewrite app_nil_r.
  - cbn [suggestUpdates_loop]. unfold mbind, prog_mbind.
    rewrite outcome_bind, events_of_bind.
    destruct (resolveLatestVersion_answered dep (suggest_constraints JAVA_VERSION) env w)
      as (answer & Hev & Hout).
    rewrite Hout, Hev.
    set (w1 := (run (resolveLatestVersion dep (suggest_constraints JAVA_VERSION)) env w).2).
    assert (forall skipped : suggestion_for dep answer = None,
              exists answers,
                length answers = S (length rest) /\
                resolution_events dep answer
                ++ events_of (suggestUpdates_loop JAVA_VERSION updates rest) env w1
                = concat (zip_with resolution_events (dep :: rest) answers) /\
                (run (suggestUpdates_loop JAVA_VERSION updates rest) env w1).1
                = Returned (updates
                            ++ omap id (zip_with suggestion_for (dep :: rest) answers)))
      as Hskip.
    { intros Hnone. destruct (IH updates w1) as (answers & Hl & He & Ho).
      exists (answer :: answers). split; [cbn [length]; by rewrite Hl |].
      split; [cbn [zip_with concat]; by rewrite He |].
      rewrite Ho. cbn [zip_with omap]. by rewrite Hnone. }
    destruct answer as [e | [[| latest versions] |]]; cbn [findBestVersion];
      try (apply Hskip; reflexivity).
    destruct latest as [| c s]; cbn [JS.truthy andb].
    { apply Hskip. cbn [suggestion_for]. rewrite bool_decide_eq_true_2; [done | by left]. }
    destruct (decide (String c s = version dep)) as [Heq | Hne].
    + rewrite (bool_decide_eq_true_2 _ Heq). cbn [negb].
      apply Hskip. cbn [suggestion_for]. rewrite bool_decide_eq_true_2; [done | by right].
    + rewrite (bool_decide_eq_false_2 _ Hne). cbn [negb].
      destruct (IH (updates ++ [{| sug_dependency := dep; suggestedVersion := String c s;
                                   updateType := determineUpdateType (version dep) (String c s) |}])
                   w1) as (answers & Hl & He & Ho).
      exists (AxiosResponse (Some (String c s :: versions)) :: answers).
      split; [cbn [length]; by rewrite Hl |].
      split; [cbn [zip_with concat]; by rewrite He |].
      rewrite Ho, <- app_assoc. cbn [zip_with omap suggestion_for].
      rewrite bool_decide_eq_false_2; [reflexivity |]. intros [H | H]; [discriminate H | done].
Qed.

Lemma suggestions_sound (dependencies : list Dependency) (answers : list AxiosOutcome) :
  sublist (map sug_dependency (omap id (zip_with suggestion_for dependencies answers)))
          dependencies /\
  Forall suggestion_ok (omap id (zip_with suggestion_for dependencies answers)).
Proof.
  revert answers. induction dependencies as [| dep rest IH]; intros answers.
  - split; constructor.
  - destruct answers as [| answer answers]; [split; [apply sublist_nil_l | constructor] |].
    destruct (IH answers) as [Hs Hf]. cbn [zip_with omap].
    destruct (suggestion_for dep answer) as [u |] eqn:Hu; cbn [id option_bind map].
    + destruct answer as [e | [[| latest versions] |]]; try discriminate Hu.
      cbn [suggestion_for] in Hu. case_bool_decide as Hc; [discriminate Hu |].
      injection Hu as <-. split; [by apply sublist_skip |].
      constructor; [| exact Hf]. repeat split; cbn; intros H; apply Hc; tauto.
    + split; [by apply sublist_cons | exact Hf].
Qed.

Lemma registry_queries_resolutions (dependencies : list Dependency)
    (answers : list AxiosOutcome) :
  length answers = length dependencies ->
  length (registry_queries (concat (zip_with resolution_events dependencies answers)))
  = length dependencies.
Proof.
  revert answers. induction dependencies as [| dep rest IH]; intros [| answer answers] Hl;
    try discriminate Hl; [reflexivity |].
  cbn [zip_with concat length]. rewrite registry_queries_app, length_app, IH by by injection Hl.
  by destruct answer as [e | [versions |]].
Qed.

(** X23. [suggestUpdates] never rejects and is decided by the registry's
    answers, one query per dependency in the order of the list: a
    dependency gets a suggestion exactly when its answer lists a first
    version that is not empty and not the current one, and a failed query
    is logged and drops that dependency only. So the suggestions follow the
    order of the dependencies, and each names a version that is non-empty
    and different from the current one, with the update type of that pair. *)
Theorem suggestUpdates_sound (JAVA_VERSION : option string) (dependencies : list Dependency)
    (env : Env) (w : World) :
  exists answers updates,
    length answers = length dependencies /\
    events_of (suggestUpdates JAVA_VERSION dependencies) env w
    = concat (zip_with resolution_events dependencies answers) /\
    (run (suggestUpdates JAVA_VERSION dependencies) env w).1 = Returned updates /\
    updates = omap id (zip_with suggestion_for dependencies answers) /\
    sublist (map sug_dependency updates) dependencies /\
    Forall suggestion_ok updates /\
    length (registry_queries (events_of (suggestUpdates JAVA_VERSION dependencies) env w))
    = length dependencies.
Proof.
  destruct (suggestUpdates_loop_answered JAVA_VERSION [] dependencies env w)
    as (answers & Hl & He & Ho).
  exists answers, (omap id (zip_with suggestion_for dependencies answers)).
  split; [exact Hl |]. split; [exact He |]. split; [exact Ho |]. split; [reflexivity |].
  destruct (suggestions_sound dependencies answers) as [Hs Hf].
  split; [exact Hs |]. split; [exact Hf |].
  unfold suggestUpdates in *. rewrite He. by apply registry_queries_resolutions.
Qed.

End ResolverMore.

(* ===================================================================== *)
(** ** More properties: the version map of [checkConflicts] *)
(* ===================================================================== *)

Section VersionMapMore.
Import DependencyResolver.

Lemma map_get_set_eq (key : string) (vs : list string) (m : VersionMap) :
  map_get key (map_set key vs m) = Some vs.
Proof.
  induction m as [| [k old] m IH]; cbn.
  - by rewrite bool_decide_eq_true_2.
  - case_bool_decide as Hk; cbn.
    + by rewrite bool_decide_eq_true_2.
    + by rewrite bool_decide_eq_false_2.
Qed.

Lemma map_get_set_ne (key key' : string) (vs : list string) (m : VersionMap) :
  key <> key' -> map_get key' (map_set key vs m) = map_get key' m.
Proof.
  intros Hne. induction m as [| [k old] m IH]; cbn.
  - by rewrite bool_decide_eq_false_2.
  - case_bool_decide as Hk; cbn.
    + subst k. by rewrite !bool_decide_eq_false_2.
    + case_bool_decide; [reflexivity | exact IH].
Qed.

Lemma map_set_keys (key : string) (vs : list string) (m : VersionMap) :
  map fst (map_set key vs m) =
  if bool_decide (key ∈ map fst m) then map fst m else map fst m ++ [key].
Proof.
  induction m as [| [k old] m IH]; cbn [map_set map fst].
  - rewrite bool_decide_eq_false_2; [reflexivity | apply not_elem_of_nil].
  - destruct (decide (k = key)) as [-> | Hk].
    + rewrite (bool_decide_eq_true_2 (key = key)) by done. cbn [map fst].
      rewrite bool_decide_eq_true_2; [reflexivity | by left].
    + rewrite (bool_decide_eq_false_2 (k = key)) by done. cbn [map fst].
      rewrite IH. destruct (decide (key ∈ map fst m)) as [Hin | Hin].
      * rewrite (bool_decide_eq_true_2 _ Hin).
        rewrite bool_decide_eq_true_2; [reflexivity | by right].
      * rewrite (bool_decide_eq_false_2 _ Hin).
        rewrite bool_decide_eq_false_2; [reflexivity |].
        intros [-> | H]%elem_of_cons; done.
Qed.

Lemma set_add_elem (v x : string) (s : list string) : x ∈ set_add v s <-> x = v \/ x ∈ s.
Proof.
  unfold set_add. case_bool_decide as Hin.
  - split; [by right | by intros [-> |]].
  - rewrite elem_of_app, list_elem_of_singleton. tauto.
Qed.

Lemma set_add_NoDup (v : string) (s : list string) : NoDup s -> NoDup (set_add v s).
Proof.
  intros Hnd. unfold set_add. case_bool_decide as Hin; [exact Hnd |].
  apply NoDup_app. split; [exact Hnd |]. split; [| apply NoDup_singleton].
  intros x Hx Hx'. apply list_elem_of_singleton in Hx'. by subst x.
Qed.

Lemma set_add_nonempty (v : string) (s : list string) : set_add v s <> [].
Proof.
  unfold set_add. case_bool_decide as Hin.
  - intros ->. by apply elem_of_nil in Hin.
  - by destruct s.
Qed.

Lemma build_version_map_cons (m : VersionMap) (dep : Dependency) (rest : list Dependency) :
  build_version_map m (dep :: rest) =
  build_version_map
    (map_set (dep_key dep) (set_add (version dep) (versions_for (dep_key dep) m)) m) rest.
Proof. reflexivity. Qed.

Lemma well_grouped_step (m : VersionMap) (dep : Dependency) :
  well_grouped m ->
  well_grouped (map_set (dep_key dep) (set_add (version dep) (versions_for (dep_key dep) m)) m).
Proof.
  intros [Hkeys Hvs]. split.
  - rewrite map_set_keys. case_bool_decide as Hin; [exact Hkeys |].
    apply NoDup_app. split; [exact Hkeys |]. split; [| apply NoDup_singleton].
    intros x Hx Hx'. apply list_elem_of_singleton in Hx'. by subst x.
  - intros key versions Hget.
    destruct (decide (dep_key dep = key)) as [<- | Hne].
    + rewrite map_get_set_eq in Hget. injection Hget as <-.
      split; [| apply set_add_nonempty]. apply set_add_NoDup.
      unfold versions_for. destruct (map_get (dep_key dep) m) as [vs |] eqn:Hm; cbn.
      * by apply (Hvs _ _ Hm).
      * constructor.
    + rewrite map_get_set_ne in Hget by done. by apply (Hvs key).
Qed.

Lemma versions_for_step (m : VersionMap) (dep : Dependency) (key v : string) :
  v ∈ versions_for key
        (map_set (dep_key dep) (set_add (version dep) (versions_for (dep_key dep) m)) m)
  <-> v ∈ versions_for key m \/ (dep_key dep = key /\ version dep = v).
Proof.
  unfold versions_for at 1.
  destruct (decide (dep_key dep = key)) as [<- | Hne].
  - rewrite map_get_set_eq. cbn. rewrite set_add_elem. split.
    + intros [-> | H]; [right; done | by left].
    + intros [H | [_ <-]]; [by right | by left].
  - rewrite map_get_set_ne by done. fold (versions_for key m). split; [by left |].
    intros [H | [H _]]; [exact H | done].
Qed.

Lemma build_version_map_invariant (m : VersionMap) (dependencies : list Dependency) :
  well_grouped m ->
  well_grouped (build_version_map m dependencies) /\
  forall key v,
    v ∈ versions_for key (build_version_map m dependencies) <->
    v ∈ versions_for key m \/
    exists dep, dep ∈ dependencies /\ dep_key dep = key /\ version dep = v.
Proof.
  revert m. induction dependencies as [| dep rest IH]; intros m Hm.
  - split; [exact Hm |]. intros key v. cbn. split; [by left |].
    intros [H | (dep & Hd & _)]; [exact H | by apply elem_of_nil in Hd].
  - rewrite build_version_map_cons.
    destruct (IH _ (well_grouped_step m dep Hm)) as [Hwg Hmem].
    split; [exact Hwg |]. intros key v. rewrite Hmem, versions_for_step. split.
    + intros [[H | [Hk Hv]] | (d & Hd & Hk & Hv)].
      * by left.
      * right. exists dep. split; [by left | done].
      * right. exists d. split; [by right | done].
    + intros [H | (d & Hd & Hk & Hv)]; [by left; left |].
      apply elem_of_cons in Hd as [-> | Hd]; [left; right; done |].
      right. by exists d.
Qed.

(** X24. The version map [checkConflicts] builds groups the dependencies by
    groupId:artifactId: its keys are distinct, each key holds a non-empty
    list of distinct versions, and a version is listed under a key exactly
    when some dependency has that key and that version. *)
Theorem build_version_map_groups (dependencies : list Dependency) :
  well_grouped (build_version_map [] dependencies) /\
  forall key v,
    v ∈ versions_for key (build_version_map [] dependencies) <->
    exists dep, dep ∈ dependencies /\ dep_key dep = key /\ version dep = v.
Proof.
  destruct (build_version_map_invariant [] dependencies) as [Hwg Hmem].
  { split; [constructor | intros key versions H; discriminate H]. }
  split; [exact Hwg |]. intros key v. rewrite Hmem. split; [| by right].
  intros [H | H]; [by apply elem_of_nil in H | exact H].
Qed.

Lemma find_conflicts_filter (conflicts : list DependencyConflict)
    (entries : list (string * list string)) :
  find_conflicts conflicts entries =
  conflicts ++ map conflict_of_entry
                 (List.filter (fun entry => (1 <? length entry.2)%nat) entries).
Proof.
  revert conflicts. induction entries as [| [key versions] rest IH]; intros conflicts.
  - cbn. by rewrite app_nil_r.
  - cbn [find_conflicts List.filter snd]. destruct (1 <? length versions)%nat.
    + rewrite IH. cbn [map]. by rewrite <- app_assoc.
    + apply IH.
Qed.

Lemma split_at_separator (sep : ascii) (s rest : string) :
  (forall i, String.get i s <> Some sep) ->
  JS.split sep (s +:+ String sep rest) = s :: JS.split sep rest.
Proof.
  induction s as [| c s IH]; intros Hs.
  - change (EmptyString +:+ String sep rest) with (String sep rest).
    cbn [JS.split]. by rewrite Ascii.eqb_refl.
  - assert (Ascii.eqb c sep = false) as Hc.
    { apply Ascii.eqb_neq. intros ->. by apply (Hs 0%nat). }
    change (String c s +:+ String sep rest) with (String c (s +:+ String sep rest)).
    cbn [JS.split]. rewrite Hc, IH; [reflexivity |]. intros i. apply (Hs (S i)).
Qed.

Lemma split_without_separator (sep : ascii) (s : string) :
  (forall i, String.get i s <> Some sep) -> JS.split sep s = [s].
Proof.
  induction s as [| c s IH]; intros Hs; [reflexivity |].
  assert (Ascii.eqb c sep = false) as Hc.
  { apply Ascii.eqb_neq. intros ->. by apply (Hs 0%nat). }
  cbn [JS.split]. rewrite Hc, IH; [reflexivity |]. intros i. apply (Hs (S i)).
Qed.

(** X25. The conflict loop of [checkConflicts], run over a list of entries,
    makes one conflict of each entry that holds more than one version, in
    the order of the entries and with the entry's versions; and the groupId
    and artifactId it reads back off the key are those of the dependency when
    neither contains a colon. *)
Theorem find_conflicts_reports (entries : list (string * list string)) :
  find_conflicts [] entries
  = map conflict_of_entry (List.filter (fun entry => (1 <? length entry.2)%nat) entries) /\
  forall (dep : Dependency) (versions : list string),
    no_colon (groupId dep) -> no_colon (artifactId dep) ->
    conflict_of_entry (dep_key dep, versions)
    = {| conflict_groupId := groupId dep; conflict_artifactId := artifactId dep;
         conflict_versions := versions |}.
Proof.
  split; [apply (find_conflicts_filter []) |].
  intros dep versions Hg Ha. unfold conflict_of_entry, dep_key. cbn [fst snd].
  change (groupId dep +:+ ":" +:+ artifactId dep)
    with (groupId dep +:+ String ":"%char (artifactId dep)).
  rewrite (split_at_separator ":"%char _ _ Hg), (split_without_separator ":"%char _ Ha).
  reflexivity.
Qed.

Lemma find_conflicts_reports_witness :
  conflict_of_entry
    (dep_key {| groupId := "org.slf4j"; artifactId := "slf4j-api"; version := "1.7.36" |},
     ["1.7.36"; "2.0.9"])
  = {| conflict_groupId := "org.slf4j"; conflict_artifactId := "slf4j-api";
       conflict_versions := ["1.7.36"; "2.0.9"] |}.
Proof.
  apply (proj2 (find_conflicts_reports [])
           {| groupId := "org.slf4j"; artifactId := "slf4j-api"; version := "1.7.36" |}).
  - intros i. vm_compute.
    do 9 (destruct i as [| i]; [discriminate |]). discriminate.
  - intros i. vm_compute.
    do 9 (destruct i as [| i]; [discriminate |]). discriminate.
Defined.

End VersionMapMore.

(* ===================================================================== *)
(** ** More properties: the resolver with [findLatestVersion] *)
(* ===================================================================== *)

Section ResolverService.
Import DependencyResolverService.

Lemma getAvailableVersions_runs (dependency : Dependency) env w :
  (run (getAvailableVersions (groupId dependency) (artifactId dependency)) env w).1 =
  match service_answer env w dependency with
  | AxiosRejected e => Rejected (fetch_error e)
  | AxiosResponse docs => Returned (default [] docs)
  end /\
  events_of (getAvailableVersions (groupId dependency) (artifactId dependency)) env w
  = [mkEvent AxiosOutcome
       (AxiosGet mavenCentralUrl (DependencyResolver.solr_query dependency))
       (service_answer env w dependency)].
Proof.
  assert (service_answer env w dependency
          = (perform (AxiosGet mavenCentralUrl (DependencyResolver.solr_query dependency))
               env w).1) as -> by reflexivity.
  unfold getAvailableVersions, mbind, prog_mbind, call. cbn [prog_bind try_catch].
  rewrite outcome_vis, events_of_vis.
  change ("g:" +:+ JS.dquote +:+ groupId dependency +:+ JS.dquote
          +:+ " AND a:" +:+ JS.dquote +:+ artifactId dependency +:+ JS.dquote)
    with (DependencyResolver.solr_query dependency).
  destruct (perform (AxiosGet mavenCentralUrl (DependencyResolver.solr_query dependency))
              env w) as [[e | docs] w1]; cbn [fst snd prog_bind try_catch].
  - rewrite events_of_throw. split; [| reflexivity]. by destruct e.
  - rewrite events_of_ret. split; reflexivity.
Qed.

(** X26. [findLatestVersion] answers with the last element of the version list
    the registry returned, whatever it is, and with none for an empty list or
    a body without the list; when the request fails it does not reject: it
    hands the logger an error quoting the failure's message and answers
    none. *)
Theorem findLatestVersion_last_or_none (dep : Dependency) (env : Env) (w : World) :
  (forall versions, service_answer env w dep = AxiosResponse (Some versions) ->
     (run (findLatestVersion dep) env w).1 = Returned (last versions)) /\
  (service_answer env w dep = AxiosResponse None ->
     (run (findLatestVersion dep) env w).1 = Returned None) /\
  (forall e, service_answer env w dep = AxiosRejected e ->
     (run (findLatestVersion dep) env w).1 = Returned None /\
     existsb (is_logged_error (fetch_error e)) (events_of (findLatestVersion dep) env w) = true).
Proof.
  unfold findLatestVersion, mbind, prog_mbind.
  rewrite outcome_try_catch, events_of_try_catch, outcome_bind, events_of_bind, world_bind.
  destruct (getAvailableVersions_runs dep env w) as [Hout Hev]. rewrite Hout, Hev.
  split; [| split].
  - intros versions ->. cbn [default from_option id run fst]. f_equal.
    rewrite last_lookup. destruct versions as [| v versions]; [reflexivity |].
    cbn [length Nat.ltb Nat.leb]. f_equal. cbn. lia.
  - intros ->. reflexivity.
  - intros e ->. split.
    + unfold call. cbn [prog_bind]. rewrite outcome_vis. reflexivity.
    + rewrite existsb_app. apply orb_true_iff. right.
      unfold call. cbn [prog_bind]. rewrite events_of_vis. cbn [existsb].
      apply orb_true_iff. left. cbn. by apply bool_decide_eq_true.
Qed.

Lemma findLatestVersion_last_or_none_witness :
  let dep := {| groupId := "org.slf4j"; artifactId := "slf4j-api"; version := "1.7.36" |} in
  (run (findLatestVersion dep)
       (registry_env (AxiosResponse (Some ["1.7.36"; "2.0.9"]))) (world_with [])).1
  = Returned (Some "2.0.9") /\
  (run (findLatestVersion dep) (registry_env (AxiosResponse None)) (world_with [])).1
  = Returned None /\
  (run (findLatestVersion dep)
       (registry_env (AxiosRejected (JS.ErrorObject JS.AxiosError "Network Error")))
       (world_with [])).1
  = Returned None.
Proof.
  intros dep. split; [| split].
  - apply (proj1 (findLatestVersion_last_or_none dep
                    (registry_env (AxiosResponse (Some ["1.7.36"; "2.0.9"]))) (world_with []))
             ["1.7.36"; "2.0.9"]).
    reflexivity.
  - apply (proj1 (proj2 (findLatestVersion_last_or_none dep
                           (registry_env (AxiosResponse None)) (world_with [])))).
    reflexivity.
  - apply (proj2 (proj2 (findLatestVersion_last_or_none dep
                           (registry_env (AxiosRejected
                                            (JS.ErrorObject JS.AxiosError "Network Error")))
                           (world_with [])))
             (JS.ErrorObject JS.AxiosError "Network Error")).
    reflexivity.
Defined.

(** X27. [validateDependency] answers whether the dependency's version is among
    the versions the registry returned; it answers false, without rejecting,
    when the request fails or the body lacks the list. *)
Theorem validateDependency_membership (dependency : Dependency) (env : Env) (w : World) :
  (forall versions, service_answer env w dependency = AxiosResponse (Some versions) ->
     (run (validateDependency dependency) env w).1
     = Returned (bool_decide (version dependency ∈ versions))) /\
  (service_answer env w dependency = AxiosResponse None ->
     (run (validateDependency dependency) env w).1 = Returned false) /\
  (forall e, service_answer env w dependency = AxiosRejected e ->
     (run (validateDependency dependency) env w).1 = Returned false).
Proof.
  unfold validateDependency, mbind, prog_mbind.
  rewrite outcome_try_catch, outcome_bind.
  destruct (getAvailableVersions_runs dependency env w) as [Hout _]. rewrite Hout.
  split; [| split].
  - intros versions ->. reflexivity.
  - intros ->. reflexivity.
  - intros e ->. unfold call. cbn [prog_bind]. rewrite outcome_vis. reflexivity.
Qed.

Lemma validateDependency_membership_witness :
  let dep := {| groupId := "org.slf4j"; artifactId := "slf4j-api"; version := "1.7.36" |} in
  (run (validateDependency dep)
       (registry_env (AxiosResponse (Some ["1.7.36"; "2.0.9"]))) (world_with [])).1
  = Returned (bool_decide ("1.7.36" ∈ ["1.7.36"; "2.0.9"])) /\
  (run (validateDependency dep)
       (registry_env (AxiosRejected (JS.ErrorObject JS.AxiosError "Network Error")))
       (world_with [])).1
  = Returned false.
Proof.
  intros dep. split.
  - apply (proj1 (validateDependency_membership dep
                    (registry_env (AxiosResponse (Some ["1.7.36"; "2.0.9"]))) (world_with []))
             ["1.7.36"; "2.0.9"]).
    reflexivity.
  - apply (proj2 (proj2 (validateDependency_membership dep
                           (registry_env (AxiosRejected
                                            (JS.ErrorObject JS.AxiosError "Network Error")))
                           (world_with [])))
             (JS.ErrorObject JS.AxiosError "Network Error")).
    reflexivity.
Defined.

End ResolverService.

(* ===================================================================== *)
(** ** More properties: the vulnerability check *)
(* ===================================================================== *)

Section CVEMore.
Import CVEValidator.






End CVEMore.
